(** * Row-cleaning pipeline of [prediction_model/pipeline/preprocessing.py]

    A shallow embedding of the per-row transforms ([filter_features],
    [FilterInvalidContract], [OHEContract], [HandleContract],
    [FillTotalCharges], [FillPhoneService], [FillTenureWithMean],
    [MapPhoneService]), of the helpers [is_csv_empty],
    [find_leading_column_index], [convert_dict_to_string],
    [dict_to_csv_row] and of the driver [run_pipeline], followed by the
    properties of the specification and by further properties of the code.

    Conventions of the embedding.
    - A Python [str] is a Rocq [string] whose characters are read as the code
      points 0..255; the string built-ins ([strip], [lower], [split],
      [replace], [float]) are modelled on that range.
    - A Python [float] is a primitive binary64 [float]; [float(str)] is
      modelled with correct rounding.
    - A record (a [dict] keyed by column name) is a [gmap string value].
    - A call that may raise returns a [result]; a [DoFn.process] generator
      returns the list of the elements it yields.
    - A Beam collection is a list handled in the order of the input lines,
      one step over the whole batch after the other; an exception raised by
      a step ends the run, and no file is written.  Beam fixes no order
      between the elements, so when several elements fail the properties
      say that the run raises, not which of the exceptions is reported.
    - The constants of [prediction_model.config.config], the mean of the
      reference data set and [str] on floats are parameters. *)

From Stdlib Require Import ZArith Ascii String List Floats.
From stdpp Require Import base option list strings pretty gmap fin_maps.

Set Warnings "-inexact-float".
Local Open Scope string_scope.
Local Open Scope list_scope.
Local Open Scope Z_scope.

(** ** Exceptions *)

Inductive exn : Set :=
  | KeyError
  | ValueError
  | AttributeError
  | TypeError
  | OverflowError
  | FileNotFoundError.

Inductive result (A : Type) : Type :=
  | Ok (a : A)
  | Raise (e : exn).
Arguments Ok {A} a.
Arguments Raise {A} e.

#[global] Instance result_ret : MRet result := fun A a => Ok a.

#[global] Instance result_bind : MBind result := fun A B k m =>
  match m with
  | Ok a => k a
  | Raise e => Raise e
  end.

Definition raises {A} (m : result A) : Prop := exists e, m = Raise e.

(** ** Characters and strings *)

Module Str.

Definition code (c : ascii) : N := N_of_ascii c.

Definition in_range (lo hi : N) (c : ascii) : bool :=
  ((lo <=? code c) && (code c <=? hi))%N.

(** [str.isspace] on one character (code points below 256). *)
Definition isspace (c : ascii) : bool :=
  in_range 9 13 c || in_range 28 32 c
  || (code c =? 133)%N || (code c =? 160)%N.

(** The characters [float()] strips around a number: the ASCII white space
    of C plus the two non-ASCII spaces below 256. *)
Definition isspace_float (c : ascii) : bool :=
  in_range 9 13 c || (code c =? 32)%N
  || (code c =? 133)%N || (code c =? 160)%N.

Definition isdigit (c : ascii) : bool := in_range 48 57 c.

Definition digit_val (c : ascii) : Z := Z.of_N (code c) - 48.

(** [str.lower] on one character. *)
Definition lower_char (c : ascii) : ascii :=
  if in_range 65 90 c || in_range 192 214 c || in_range 216 222 c
  then ascii_of_N (code c + 32)
  else c.

Fixpoint lower (s : string) : string :=
  match s with
  | EmptyString => EmptyString
  | String c s' => String (lower_char c) (lower s')
  end.

Fixpoint lstrip_by (sp : ascii -> bool) (s : string) : string :=
  match s with
  | EmptyString => EmptyString
  | String c s' => if sp c then lstrip_by sp s' else s
  end.

(** Drops the trailing characters satisfying [sp]. *)
Fixpoint rstrip_by (sp : ascii -> bool) (s : string) : string :=
  match s with
  | EmptyString => EmptyString
  | String c s' =>
      match rstrip_by sp s' with
      | EmptyString => if sp c then EmptyString else String c EmptyString
      | r => String c r
      end
  end.

Definition strip_by (sp : ascii -> bool) (s : string) : string :=
  rstrip_by sp (lstrip_by sp s).

(** [s.strip()] *)
Definition strip (s : string) : string := strip_by isspace s.

(** [s.replace(old, new)] for a one-character [old]. *)
Fixpoint replace (old : ascii) (new : string) (s : string) : string :=
  match s with
  | EmptyString => EmptyString
  | String c s' =>
      if Ascii.eqb c old then new +:+ replace old new s'
      else String c (replace old new s')
  end.

(** [s.split(sep)] for a one-character [sep]: never the empty list. *)
Fixpoint split (sep : ascii) (s : string) : list string :=
  match s with
  | EmptyString => [EmptyString]
  | String c s' =>
      if Ascii.eqb c sep then EmptyString :: split sep s'
      else match split sep s' with
           | [] => [String c EmptyString]
           | w :: ws => String c w :: ws
           end
  end.

(** [sep.join(l)] *)
Fixpoint join (sep : string) (l : list string) : string :=
  match l with
  | [] => EmptyString
  | [x] => x
  | x :: l' => x +:+ sep +:+ join sep l'
  end.

Fixpoint all (p : ascii -> bool) (s : string) : bool :=
  match s with
  | EmptyString => true
  | String c s' => p c && all p s'
  end.

End Str.

(** ** Floats: [float(str)] and [float(int)] *)

Module PyFloat.

(** The binary64 value nearest to [num / den] (ties to even), negated when
    [neg]; infinite when the quotient is beyond the largest finite value. *)
Definition of_ratio (neg : bool) (num den : positive) : float :=
  SF2Prim (SFdiv prec emax (S754_finite neg num 0) (S754_finite false den 0)).

(** The binary64 value nearest to [m * 10 ^ e], for [0 <= m]. *)
Definition of_decimal (neg : bool) (m e : Z) : float :=
  match m with
  | Zpos p =>
      match e with
      | Zneg k => of_ratio neg p (10 ^ k)%positive
      | _ => of_ratio neg (p * Z.to_pos (10 ^ e)) 1
      end
  | _ => if neg then neg_zero else zero
  end.

(** [float(n)] for an [int]: [None] stands for [OverflowError]. *)
Definition of_int (n : Z) : option float :=
  let f := of_decimal (n <? 0) (Z.abs n) 0 in
  if is_infinity f then None else Some f.

Fixpoint take_digits (s : string) : string * string :=
  match s with
  | String c s' =>
      if Str.isdigit c
      then let '(d, r) := take_digits s' in (String c d, r)
      else (EmptyString, s)
  | EmptyString => (EmptyString, EmptyString)
  end.

Fixpoint digits_val (acc : Z) (s : string) : Z :=
  match s with
  | EmptyString => acc
  | String c s' => digits_val (10 * acc + Str.digit_val c) s'
  end.

Definition take_sign (s : string) : bool * string :=
  match s with
  | String "-" s' => (true, s')
  | String "+" s' => (false, s')
  | _ => (false, s)
  end.

(** Underscores are accepted only between two digits. *)
Fixpoint underscores_ok (prev : ascii) (s : string) : bool :=
  match s with
  | EmptyString => negb (Ascii.eqb prev "_")
  | String c s' =>
      (if Ascii.eqb c "_" then Str.isdigit prev
       else if Ascii.eqb prev "_" then Str.isdigit c else true)
      && underscores_ok c s'
  end.

(** A decimal numeral [digits [. digits] [(e|E) [sign] digits]] with at least
    one mantissa digit, as mantissa and power of ten. *)
Definition parse_decimal (s : string) : option (Z * Z) :=
  let '(ip, r1) := take_digits s in
  let '(fp, r2) :=
    match r1 with
    | String "." r => take_digits r
    | _ => (EmptyString, r1)
    end in
  let m := digits_val 0 (ip +:+ fp) in
  let k := Z.of_nat (String.length fp) in
  if String.eqb ip "" && String.eqb fp "" then None
  else match r2 with
       | EmptyString => Some (m, - k)
       | String c r3 =>
           if Ascii.eqb c "e" || Ascii.eqb c "E" then
             let '(eneg, r4) := take_sign r3 in
             let '(ed, r5) := take_digits r4 in
             if String.eqb ed "" || negb (String.eqb r5 "") then None
             else let x := digits_val 0 ed in
                  Some (m, (if eneg then - x else x) - k)
           else None
       end.

(** [float(s)] for a [str]: [None] stands for [ValueError]. *)
Definition of_string (s : string) : option float :=
  if underscores_ok "000" s then
    let t := Str.strip_by Str.isspace_float (Str.replace "_" "" s) in
    let '(neg, body) := take_sign t in
    let w := Str.lower body in
    if String.eqb w "inf" || String.eqb w "infinity"
    then Some (if neg then neg_infinity else infinity)
    else if String.eqb w "nan" then Some nan
    else match parse_decimal body with
         | Some (m, e) => Some (of_decimal neg m e)
         | None => None
         end
  else None.

End PyFloat.

(** ** Values, records and configuration *)

(** The values a record holds: [None], a [str], a [float] or an [int]. *)
Inductive value : Type :=
  | VNone
  | VStr (s : string)
  | VFloat (f : float)
  | VInt (n : Z).

Abbreviation record := (gmap string value).

(** [isinstance(v, float) and math.isnan(v)] *)
Definition is_float_nan (v : value) : bool :=
  match v with
  | VFloat f => is_nan f
  | _ => false
  end.

(** [v is None] *)
Definition is_none (v : value) : bool :=
  match v with
  | VNone => true
  | _ => false
  end.

(** [v == s] for a [str] literal [s] *)
Definition eq_str (v : value) (s : string) : bool :=
  match v with
  | VStr s' => String.eqb s' s
  | _ => false
  end.

(** [element[key]] *)
Definition getitem (element : record) (key : string) : result value :=
  match element !! key with
  | Some v => Ok v
  | None => Raise KeyError
  end.

(** [element.get(key, default)] *)
Definition get (element : record) (key : string) (default : value) : value :=
  match element !! key with
  | Some v => v
  | None => default
  end.

(** [float(v)] *)
Definition py_float (v : value) : result float :=
  match v with
  | VNone => Raise TypeError
  | VStr s =>
      match PyFloat.of_string s with
      | Some f => Ok f
      | None => Raise ValueError
      end
  | VFloat f => Ok f
  | VInt n =>
      match PyFloat.of_int n with
      | Some f => Ok f
      | None => Raise OverflowError
      end
  end.

(** The constants of [prediction_model.config.config] that the pipeline
    reads; the module itself is not part of the sources, so its values are
    the fields of a record. *)
Module config.
Record t : Type := {
  FEATURES : list string;
  FEATURES_AFTER_CONTRACT : list string;
  COLUMN_NAMES : list string;
  LEADING_COLUMN : string;
  FEATURE_TO_MODIFY : string
}.
End config.

(** ** Helpers *)

(** [{key: element[key] for key in config.FEATURES_AFTER_CONTRACT}] *)
Fixpoint dict_of_keys (keys : list string) (element acc : record)
  : result record :=
  match keys with
  | [] => Ok acc
  | key :: keys' =>
      v ← getitem element key;
      dict_of_keys keys' element (<[key := v]> acc)
  end.

Definition filter_features (cfg : config.t) (element : record)
  : result record :=
  dict_of_keys (config.FEATURES_AFTER_CONTRACT cfg) element ∅.

(** [columns.index(target_column)] when [target_column in columns]. *)
Fixpoint index_of (target : string) (columns : list string) : option nat :=
  match columns with
  | [] => None
  | c :: columns' =>
      if String.eqb c target then Some O
      else S <$> index_of target columns'
  end.

Definition find_leading_column_index (header target_column : string)
  : result nat :=
  let columns := Str.split "," header in
  match index_of target_column columns with
  | Some i => Ok i
  | None => Raise ValueError
  end.

(** ** The row transforms

    Each [process] returns the list of the elements the generator yields, or
    the exception it raises. *)

Module FillTotalCharges.

(** The pipeline builds the stage as [FillTotalCharges()], so
    [self.default_value] is [2279.0] and [str(self.default_value)] is
    ["2279.0"]. *)
Definition default_value : float := 2279.0%float.
Definition default_value_str : string := "2279.0".

(** [total_charges.replace(' ', str(self.default_value))]: only a [str] has
    the method. *)
Definition replace_spaces (total_charges : value) : result string :=
  match total_charges with
  | VStr s => Ok (Str.replace " " default_value_str s)
  | _ => Raise AttributeError
  end.

Definition process (cfg : config.t) (element : record)
  : result (list record) :=
  let total_charges :=
    get element (config.FEATURE_TO_MODIFY cfg) (VStr default_value_str) in
  let total_charges :=
    if is_none total_charges || eq_str total_charges ""
       || is_float_nan total_charges
    then VStr default_value_str
    else total_charges in
  total_charges ← replace_spaces total_charges;
  let parsed :=
    match PyFloat.of_string total_charges with
    | Some f => f
    | None => default_value
    end in
  Ok [<["TotalCharges" := VFloat parsed]> element].

End FillTotalCharges.

Module FilterInvalidContract.

Definition valid_contracts : list string :=
  ["One year"; "Two year"; "Month-to-month"].

(** [contract_value in valid_contracts] *)
Definition is_valid (contract_value : value) : bool :=
  match contract_value with
  | VStr s => bool_decide (s ∈ valid_contracts)
  | _ => false
  end.

Definition process (element : record) : result (list record) :=
  let contract_value := get element "Contract" VNone in
  if negb (is_valid contract_value) then Ok []
  else Ok [element].

End FilterInvalidContract.

Module OHEContract.

Definition indicators (one two month : Z) : record :=
  <["One year" := VInt one]>
    (<["Two year" := VInt two]> {["Month-to-month" := VInt month]}).

Definition contract_mapping : gmap string record :=
  <["One year" := indicators 1 0 0]>
    (<["Two year" := indicators 0 1 0]>
       {["Month-to-month" := indicators 0 0 1]}).

(** [self.contract_mapping.get(v, default)] *)
Definition mapping_get (v : value) (default : record) : record :=
  match v with
  | VStr s =>
      match contract_mapping !! s with
      | Some m => m
      | None => default
      end
  | _ => default
  end.

(** [element.update(m)] overwrites, then [element.pop('Contract', None)]. *)
Definition process (element : record) : result (list record) :=
  v ← getitem element "Contract";
  let element := mapping_get v (indicators 0 0 0) ∪ element in
  Ok [delete "Contract" element].

End OHEContract.

Module HandleContract.

(** [pd.isna(v)] on a scalar is a plain [bool]. *)
Definition pd_isna (v : value) : bool :=
  match v with
  | VNone => true
  | VFloat f => is_nan f
  | _ => false
  end.

(** [b.any()] on a [bool]: the type has no such attribute. *)
Definition bool_any (b : bool) : result bool := Raise AttributeError.

Definition process (element : record) : result (list record) :=
  v ← getitem element "Contract";
  null ← bool_any (pd_isna v);
  if null : bool then Raise ValueError
  else Ok [element].

End HandleContract.

Module FillPhoneService.

Definition process (element : record) : result (list record) :=
  let phone_service_value := get element "PhoneService" VNone in
  let element :=
    if is_none phone_service_value || is_float_nan phone_service_value
    then <["PhoneService" := VStr "No"]> element
    else element in
  Ok [element].

End FillPhoneService.

Module FillTenureWithMean.

(** [self.tenure_mean], the mean of the reference data set's [tenure]
    column, read once when the stage is built. *)
Record t : Type := { tenure_mean : float }.

Definition process (self : t) (element : record) : result (list record) :=
  let tenure_value := get element "tenure" VNone in
  if is_none tenure_value || is_float_nan tenure_value
  then Ok [<["tenure" := VFloat (tenure_mean self)]> element]
  else if eq_str tenure_value ""
  then Ok [<["tenure" := VFloat 0.0%float]> element]
  else
    v ← getitem element "tenure";
    f ← py_float v;
    Ok [<["tenure" := VFloat f]> element].

End FillTenureWithMean.

Module MapPhoneService.

(** [v.lower()]: only a [str] has the method. *)
Definition lower (v : value) : result string :=
  match v with
  | VStr s => Ok (Str.lower s)
  | _ => Raise AttributeError
  end.

Definition process (element : record) : result (list record) :=
  v ← getitem element "PhoneService";
  s ← lower v;
  let flag := if String.eqb s "yes" then 1 else 0 in
  Ok [<["PhoneService" := VInt flag]> element].

End MapPhoneService.

(** ** Files and the Beam transforms *)

(** The file system and the standard output. *)
Record world : Type := {
  files : gmap string string;
  stdout : list string
}.

Definition print (line : string) (w : world) : world :=
  {| files := files w; stdout := stdout w ++ [line] |}.

(** [open(path, 'r')] followed by reading the text. *)
Definition open_read (w : world) (path : string) : result string :=
  match files w !! path with
  | Some content => Ok content
  | None => Raise FileNotFoundError
  end.

Definition LF : ascii := "010".
Definition CR : ascii := "013".

(** Text mode translates ["\r\n"] and a lone ["\r"] to ["\n"]. *)
Fixpoint universal_newlines (s : string) : string :=
  match s with
  | EmptyString => EmptyString
  | String c s' =>
      if Ascii.eqb c CR then
        match s' with
        | String c' _ =>
            if Ascii.eqb c' LF then universal_newlines s'
            else String LF (universal_newlines s')
        | EmptyString => String LF EmptyString
        end
      else String c (universal_newlines s')
  end.

(** The lines of a text, each with its terminating ["\n"] when it has one. *)
Fixpoint keepends (s : string) : list string :=
  match s with
  | EmptyString => []
  | String c s' =>
      if Ascii.eqb c LF then String c EmptyString :: keepends s'
      else match keepends s' with
           | [] => [String c EmptyString]
           | l :: ls => String c l :: ls
           end
  end.

(** The lines a text-mode file object iterates over. *)
Definition readlines (content : string) : list string :=
  keepends (universal_newlines content).

(** [file.readline()] on a freshly opened file. *)
Definition readline (content : string) : string :=
  match readlines content with
  | [] => EmptyString
  | l :: _ => l
  end.

Definition is_csv_empty (w : world) (file_path : string) : result bool :=
  content ← open_read w file_path;
  Ok (forallb (fun line => String.eqb (Str.strip line) "")
              (tail (readlines content))).

(** [beam.Map(f)] and [beam.ParDo(fn)] over a collection held as a list;
    the first exception aborts the run. *)
Fixpoint beam_Map {A B} (f : A -> result B) (l : list A) : result (list B) :=
  match l with
  | [] => Ok []
  | x :: l' => y ← f x; ys ← beam_Map f l'; Ok (y :: ys)
  end.

Fixpoint beam_ParDo {A B} (f : A -> result (list B)) (l : list A)
  : result (list B) :=
  match l with
  | [] => Ok []
  | x :: l' => ys ← f x; zs ← beam_ParDo f l'; Ok (ys ++ zs)
  end.

(** A line without its terminator, a line feed or a carriage return and a
    line feed. *)
Fixpoint strip_eol (line : string) : string :=
  match line with
  | EmptyString => EmptyString
  | String c rest =>
      if String.eqb rest (String LF "")
      then if Ascii.eqb c CR then EmptyString else String c EmptyString
      else if String.eqb line (String LF "") then EmptyString
      else String c (strip_eol rest)
  end.

(** [beam.io.ReadFromText(path, skip_header_lines=1)] *)
Definition ReadFromText (content : string) : list string :=
  map strip_eol (tail (keepends content)).

(** [beam.io.WriteToText(path, shard_name_template='')] *)
Definition WriteToText (path : string) (lines : list string) (w : world)
  : world :=
  {| files := <[path := Str.join "" (map (fun l => l +:+ String LF "") lines)]>
                (files w);
     stdout := stdout w |}.

(** ** The driver *)

Section Driver.

Variable cfg : config.t.
(** The tenure stage as [FillTenureWithMean()] builds it from the reference
    data set. *)
Variable tenure_stage : FillTenureWithMean.t.
(** [str(f)] for a [float]. *)
Variable str_float : float -> string.

(** [str(v)] *)
Definition py_str (v : value) : string :=
  match v with
  | VNone => "None"
  | VStr s => s
  | VFloat f => str_float f
  | VInt n => pretty n
  end.

Definition convert_dict_to_string (element : record) : string :=
  Str.join ","
    (map (fun col => py_str (get element col (VStr ""))) (config.FEATURES cfg)).

(** [dict(zip(names, fields))]: a later pair overwrites an earlier one. *)
Fixpoint dict_zip (names fields : list string) (acc : record) : record :=
  match names, fields with
  | n :: names', x :: fields' => dict_zip names' fields' (<[n := VStr x]> acc)
  | _, _ => acc
  end.

(** The ['To Dict'] step. *)
Definition to_dict (customer_id_index : nat) (x : string) : record :=
  dict_zip (config.COLUMN_NAMES cfg)
    (drop customer_id_index (Str.split "," x)) ∅.

(** The steps from ['Filter Invalid Contracts'] to
    ['Convert Dict to String']. *)
Definition from_contract_filter (rows : list record) : result (list string) :=
  rows ← beam_ParDo FilterInvalidContract.process rows;
  rows ← beam_ParDo OHEContract.process rows;
  rows ← beam_ParDo (FillTotalCharges.process cfg) rows;
  rows ← beam_ParDo FillPhoneService.process rows;
  rows ← beam_ParDo (FillTenureWithMean.process tenure_stage) rows;
  rows ← beam_ParDo MapPhoneService.process rows;
  Ok (map convert_dict_to_string rows).

(** [processed_data]: the whole chain over the lines read. *)
Definition processed_data (customer_id_index : nat) (lines : list string)
  : result (list string) :=
  rows ← beam_Map (filter_features cfg) (map (to_dict customer_id_index) lines);
  from_contract_filter rows.

(** [run_pipeline]: the boolean returned or the exception raised, and the
    files and output left behind.  The header line is written first. *)
Definition run_pipeline (input_file output_file db_out_suffix : string)
    (w : world) : result bool * world :=
  match is_csv_empty w input_file with
  | Raise e => (Raise e, w)
  | Ok true =>
      (Ok false, print (input_file +:+ " is empty or only contains a header.") w)
  | Ok false =>
      let w := print (input_file +:+ " contains data.") w in
      let output_data :=
        content ← open_read w input_file;
        let header := Str.strip (readline content) in
        customer_id_index ←
          find_leading_column_index header (config.LEADING_COLUMN cfg);
        rows ← processed_data customer_id_index (ReadFromText content);
        let header_str := Str.join "," (config.FEATURES cfg) in
        Ok (header_str :: rows) in
      match output_data with
      | Raise e => (Raise e, w)
      | Ok lines =>
          (Ok true, WriteToText (output_file +:+ db_out_suffix) lines w)
      end
  end.

End Driver.

(** ** The chain on records and the CSV row helper *)

(** The steps of the chain on records, from the validator to the
    PhoneService encoder. *)
Definition cleaned_records (cfg : config.t)
    (tenure_stage : FillTenureWithMean.t) (rows : list record)
  : result (list record) :=
  rows ← beam_ParDo FilterInvalidContract.process rows;
  rows ← beam_ParDo OHEContract.process rows;
  rows ← beam_ParDo (FillTotalCharges.process cfg) rows;
  rows ← beam_ParDo FillPhoneService.process rows;
  rows ← beam_ParDo (FillTenureWithMean.process tenure_stage) rows;
  beam_ParDo MapPhoneService.process rows.

Definition DQUOTE : ascii := "034".

(** [csv.writer] with the default dialect: a field is quoted when it holds
    a comma, a double quote, a carriage return or a line feed, and the
    quotes inside are doubled. *)
Definition csv_special (c : ascii) : bool :=
  Ascii.eqb c "," || Ascii.eqb c DQUOTE || Ascii.eqb c CR || Ascii.eqb c LF.

Definition csv_quoted (s : string) : string :=
  String DQUOTE
    (Str.replace DQUOTE (String DQUOTE (String DQUOTE "")) s
     +:+ String DQUOTE "").

Definition csv_field (s : string) : string :=
  if Str.all (fun c => negb (csv_special c)) s then s else csv_quoted s.

(** [writer.writerow(fields)]: a row made of one empty field is written as
    two quotes; the row ends with a carriage return and a line feed. *)
Definition csv_writerow (fields : list string) : string :=
  (match fields with
   | [EmptyString] => String DQUOTE (String DQUOTE "")
   | _ => Str.join "," (map csv_field fields)
   end) +:+ String CR (String LF "").

(** The text [csv] writes for a value: nothing for None, [str(v)]
    otherwise. *)
Definition csv_text (str_float : float -> string) (v : value) : string :=
  match v with
  | VNone => EmptyString
  | _ => py_str str_float v
  end.

(** [dict_to_csv_row(element, headers)]: both branches of [if headers]
    write the row; [DictWriter] refuses a row with a key outside
    [fieldnames], and cannot compare keys with [None]; the text written is
    stripped. *)
Definition dict_to_csv_row (str_float : float -> string) (element : record)
    (headers : option (list string)) : result string :=
  match headers with
  | None => Raise TypeError
  | Some fieldnames =>
      if forallb (fun k => bool_decide (k ∈ fieldnames))
                 (map fst (map_to_list element))
      then Ok (Str.strip
                 (csv_writerow
                    (map (fun key =>
                            csv_text str_float (get element key (VStr "")))
                         fieldnames)))
      else Raise ValueError
  end.

(** ** Notions used to state the properties *)

(** What the imputer stores for a string read from the record. *)
Definition total_charges_of (s : string) : float :=
  match PyFloat.of_string
          (Str.replace " " FillTotalCharges.default_value_str s) with
  | Some f => f
  | None => FillTotalCharges.default_value
  end.

(** The spellings of "yes" in any letter case. *)
Definition any_case_yes : list string :=
  ["yes"; "yeS"; "yEs"; "yES"; "Yes"; "YeS"; "YEs"; "YES"].

(** No line terminator among the characters of [s]. *)
Definition no_eol (s : string) : bool :=
  Str.all (fun c => negb (Ascii.eqb c LF) && negb (Ascii.eqb c CR)) s.

(** No character of [s] is [sep]. *)
Definition free_of (sep : ascii) (s : string) : bool :=
  Str.all (fun c => negb (Ascii.eqb c sep)) s.

(** The record has a valid "Contract". *)
Definition valid_contract (element : record) : bool :=
  FilterInvalidContract.is_valid (get element "Contract" VNone).

(** Exactly one of the three indicators is 1, the others are 0. *)
Definition one_hot (o : record) : Prop :=
  exists c, c ∈ FilterInvalidContract.valid_contracts
            /\ o !! c = Some (VInt 1)
            /\ forall k, k ∈ FilterInvalidContract.valid_contracts ->
                         k <> c -> o !! k = Some (VInt 0).

(** A fully cleaned record. *)
Definition cleaned (o : record) : Prop :=
  o !! "Contract" = None
  /\ one_hot o
  /\ (exists f, o !! "TotalCharges" = Some (VFloat f))
  /\ (exists f, o !! "tenure" = Some (VFloat f))
  /\ (o !! "PhoneService" = Some (VInt 0)
      \/ o !! "PhoneService" = Some (VInt 1)).

(** A line terminator. *)
Definition is_eol (c : ascii) : bool := Ascii.eqb c LF || Ascii.eqb c CR.

(** The text before the first line terminator, and the text from it on. *)
Fixpoint until_eol (s : string) : string :=
  match s with
  | EmptyString => EmptyString
  | String c s' => if is_eol c then EmptyString else String c (until_eol s')
  end.

Fixpoint from_eol (s : string) : string :=
  match s with
  | EmptyString => EmptyString
  | String c s' => if is_eol c then s else from_eol s'
  end.

(** ** Sample configuration and inputs *)

(** A configuration with the columns the transforms name. *)
Definition example_config : config.t := {|
  config.FEATURES :=
    ["tenure"; "PhoneService"; "TotalCharges";
     "One year"; "Two year"; "Month-to-month"];
  config.FEATURES_AFTER_CONTRACT :=
    ["tenure"; "PhoneService"; "Contract"; "TotalCharges"];
  config.COLUMN_NAMES :=
    ["customerID"; "tenure"; "PhoneService"; "Contract"; "TotalCharges"];
  config.LEADING_COLUMN := "customerID";
  config.FEATURE_TO_MODIFY := "TotalCharges"
|}.

Definition example_tenure_stage : FillTenureWithMean.t :=
  {| FillTenureWithMean.tenure_mean := 32.5%float |}.

(** A reference data set whose tenure column has mean 0.0. *)
Definition zero_mean_stage : FillTenureWithMean.t :=
  {| FillTenureWithMean.tenure_mean := 0.0%float |}.

Definition example_row : record :=
  <["customerID" := VStr "c1"]>
    (<["tenure" := VStr "5"]>
       (<["PhoneService" := VStr "Yes"]>
          (<["Contract" := VStr "One year"]>
             {["TotalCharges" := VStr "10.5"]}))).

Definition header_only_world : world :=
  {| files := {["in.csv" := "customerID,tenure" +:+ String LF (String " " (String LF ""))]};
     stdout := [] |}.

Definition no_leading_column_world : world :=
  {| files := {["in.csv" := "id,tenure" +:+ String LF ("7,12" +:+ String LF "")]};
     stdout := [] |}.

(** One data row whose tenure is not a number. *)
Definition bad_tenure_world : world :=
  {| files :=
       {["in.csv" :=
           "customerID,tenure,PhoneService,Contract,TotalCharges"
           +:+ String LF ("c1,abc,Yes,One year,10.5" +:+ String LF "")]};
     stdout := [] |}.

(** One data row with empty tenure, PhoneService and TotalCharges, behind an
    extra leading column. *)
Definition one_row_world : world :=
  {| files :=
       {["in.csv" :=
           ",customerID,tenure,PhoneService,Contract,TotalCharges"
           +:+ String LF ("0,c1,,,Month-to-month," +:+ String LF "")]};
     stdout := [] |}.

(** ** Basic facts *)

Lemma bind_Ok {A B} (a : A) (k : A -> result B) : (Ok a ≫= k) = k a.
Proof. reflexivity. Qed.

(** [float(s)] on sample texts: underscores between digits, white space
    around, exponents, the special values, and texts that are refused. *)
Example of_string_samples :
  PyFloat.of_string "2279.0" = Some 2279.0%float
  /\ PyFloat.of_string " 1_000.5e-1 " = Some 100.05%float
  /\ PyFloat.of_string "-.5" = Some (-0.5)%float
  /\ PyFloat.of_string "0.1" = Some 0.1%float
  /\ PyFloat.of_string "9007199254740993" = Some 9007199254740992%float
  /\ PyFloat.of_string "1e999" = Some infinity
  /\ PyFloat.of_string "-Infinity" = Some neg_infinity
  /\ PyFloat.of_string "NaN" = Some nan
  /\ PyFloat.of_string "" = None
  /\ PyFloat.of_string "1 2" = None
  /\ PyFloat.of_string "1_" = None
  /\ PyFloat.of_string "1e" = None
  /\ PyFloat.of_string "0x10" = None
  /\ PyFloat.of_string "abc" = None.
Proof. repeat split; reflexivity. Qed.

Lemma raises_bind {A B} (m : result A) (k : A -> result B) :
  raises m -> raises (m ≫= k).
Proof. intros [e ->]. by exists e. Qed.

Lemma getitem_Some (element : record) key v :
  element !! key = Some v -> getitem element key = Ok v.
Proof. unfold getitem. by intros ->. Qed.

Lemma getitem_None (element : record) key :
  element !! key = None -> getitem element key = Raise KeyError.
Proof. unfold getitem. by intros ->. Qed.

Lemma get_Some (element : record) key d v :
  element !! key = Some v -> get element key d = v.
Proof. unfold get. by intros ->. Qed.

Lemma get_None (element : record) key d :
  element !! key = None -> get element key d = d.
Proof. unfold get. by intros ->. Qed.

(** ** Contract encoder *)

Lemma lookup_indicators (a b c : Z) (k : string) :
  OHEContract.indicators a b c !! k =
    if decide (k = "One year") then Some (VInt a)
    else if decide (k = "Two year") then Some (VInt b)
    else if decide (k = "Month-to-month") then Some (VInt c)
    else None.
Proof.
  unfold OHEContract.indicators.
  repeat case_decide; simplify_map_eq; done.
Qed.

Lemma mapping_get_valid (c : string) (d : record) :
  c ∈ FilterInvalidContract.valid_contracts ->
  OHEContract.mapping_get (VStr c) d =
    OHEContract.indicators
      (if decide (c = "One year") then 1 else 0)
      (if decide (c = "Two year") then 1 else 0)
      (if decide (c = "Month-to-month") then 1 else 0).
Proof.
  unfold FilterInvalidContract.valid_contracts.
  rewrite !elem_of_cons, elem_of_nil.
  intros [-> | [-> | [-> | []]]]; reflexivity.
Qed.

Lemma elem_of_valid_contracts (k : string) :
  k ∈ FilterInvalidContract.valid_contracts <->
  k = "One year" \/ k = "Two year" \/ k = "Month-to-month".
Proof.
  unfold FilterInvalidContract.valid_contracts.
  rewrite !elem_of_cons, elem_of_nil. tauto.
Qed.

(** C1: for a record whose "Contract" is one of the three valid values, the
    encoder yields one record in which the indicator named after that value
    is 1, the two other indicators are 0, the key "Contract" is absent and
    every other key keeps its value. *)
Theorem OHEContract_one_hot (element : record) (c : string) :
  element !! "Contract" = Some (VStr c) ->
  c ∈ FilterInvalidContract.valid_contracts ->
  exists out,
    OHEContract.process element = Ok [out]
    /\ out !! c = Some (VInt 1)
    /\ (forall k, k ∈ FilterInvalidContract.valid_contracts -> k <> c ->
         out !! k = Some (VInt 0))
    /\ out !! "Contract" = None
    /\ (forall k, k ∉ FilterInvalidContract.valid_contracts ->
         k <> "Contract" -> out !! k = element !! k).
Proof.
  intros Hc Hin. unfold OHEContract.process.
  rewrite (getitem_Some _ _ _ Hc), bind_Ok.
  eexists; split; [reflexivity|].
  rewrite (mapping_get_valid _ _ Hin).
  apply elem_of_valid_contracts in Hin.
  split; [|split; [|split]].
  - destruct Hin as [-> | [-> | ->]];
      rewrite lookup_delete_ne by done;
      rewrite lookup_union, lookup_indicators;
      repeat case_decide; try done; apply union_Some_l.
  - intros k Hk Hne. apply elem_of_valid_contracts in Hk.
    assert (k <> "Contract") by (destruct Hk as [-> | [-> | ->]]; done).
    rewrite lookup_delete_ne by done.
    rewrite lookup_union, lookup_indicators.
    destruct Hk as [-> | [-> | ->]], Hin as [-> | [-> | ->]];
      repeat case_decide; try done; apply union_Some_l.
  - apply lookup_delete_eq.
  - intros k Hk Hne. rewrite elem_of_valid_contracts in Hk.
    rewrite lookup_delete_ne by done.
    rewrite lookup_union, lookup_indicators.
    repeat case_decide; try tauto.
    by destruct (element !! k).
Qed.

Lemma OHEContract_one_hot_witness :
  exists out,
    OHEContract.process
      (<["Contract" := VStr "Two year"]> {["tenure" := VStr "5"]}) = Ok [out]
    /\ out !! "Two year" = Some (VInt 1)
    /\ (forall k, k ∈ FilterInvalidContract.valid_contracts ->
         k <> "Two year" -> out !! k = Some (VInt 0))
    /\ out !! "Contract" = None
    /\ (forall k, k ∉ FilterInvalidContract.valid_contracts ->
         k <> "Contract" ->
         out !! k =
           (<["Contract" := VStr "Two year"]> {["tenure" := VStr "5"]} : record)
             !! k).
Proof.
  apply OHEContract_one_hot.
  - reflexivity.
  - apply elem_of_valid_contracts. right. left. reflexivity.
Defined.

(** ** Contract validator *)

Lemma beam_ParDo_app {A B} (f : A -> result (list B)) (l1 l2 : list A) :
  beam_ParDo f (l1 ++ l2) =
    ys ← beam_ParDo f l1; zs ← beam_ParDo f l2; Ok (ys ++ zs).
Proof.
  induction l1 as [|x l1 IH]; simpl.
  - by destruct (beam_ParDo f l2).
  - destruct (f x) as [ys|e]; simpl; [|done].
    rewrite IH. destruct (beam_ParDo f l1) as [ys1|e]; simpl; [|done].
    destruct (beam_ParDo f l2) as [ys2|e]; simpl; [|done].
    by rewrite app_assoc.
Qed.

Lemma beam_ParDo_skip {A B} (f : A -> result (list B)) (l1 l2 : list A) x :
  f x = Ok [] ->
  beam_ParDo f (l1 ++ x :: l2) = beam_ParDo f (l1 ++ l2).
Proof.
  intros Hx. rewrite !beam_ParDo_app. simpl. rewrite Hx. simpl.
  destruct (beam_ParDo f l1); simpl; [|done].
  by destruct (beam_ParDo f l2).
Qed.

Lemma beam_ParDo_raises {A B} (f : A -> result (list B)) (l1 l2 : list A) x :
  raises (f x) -> raises (beam_ParDo f (l1 ++ x :: l2)).
Proof.
  intros [e He]. rewrite beam_ParDo_app. simpl. rewrite He. simpl.
  destruct (beam_ParDo f l1) as [ys|e']; simpl; [by exists e | by exists e'].
Qed.

Lemma is_valid_true (v : value) :
  FilterInvalidContract.is_valid v = true <->
  exists s, v = VStr s /\ s ∈ FilterInvalidContract.valid_contracts.
Proof.
  destruct v as [|s|f|n]; simpl; try (split; [done | by intros (? & ? & ?)]).
  rewrite bool_decide_eq_true. split.
  - intros H. by exists s.
  - by intros (? & [= <-] & ?).
Qed.

(** C2: a record whose "Contract" is not one of the three valid strings
    (the key may be absent, the value may be None or of another type) makes
    the validator yield nothing and raise nothing; the batch that leaves the
    validator, and so everything the later steps produce, is the same as if
    the record had not been read. *)
Theorem FilterInvalidContract_drops_invalid (element : record) :
  (forall s, element !! "Contract" = Some (VStr s) ->
             s ∉ FilterInvalidContract.valid_contracts) ->
  FilterInvalidContract.process element = Ok []
  /\ (forall before after,
        beam_ParDo FilterInvalidContract.process (before ++ element :: after)
        = beam_ParDo FilterInvalidContract.process (before ++ after))
  /\ (forall cfg tenure_stage str_float before after,
        from_contract_filter cfg tenure_stage str_float
          (before ++ element :: after)
        = from_contract_filter cfg tenure_stage str_float (before ++ after)).
Proof.
  intros Hinv.
  assert (Hdrop : FilterInvalidContract.process element = Ok []).
  { unfold FilterInvalidContract.process.
    destruct (FilterInvalidContract.is_valid _) eqn:Hv; [|done].
    apply is_valid_true in Hv as (s & Hs & Hin). exfalso.
    unfold get in Hs. destruct (element !! "Contract") as [v|] eqn:Hl; [|done].
    subst v. by apply (Hinv s). }
  split; [done|]. split.
  - intros. by apply beam_ParDo_skip.
  - intros. unfold from_contract_filter. by rewrite beam_ParDo_skip.
Qed.

Lemma FilterInvalidContract_drops_invalid_witness :
  FilterInvalidContract.process {["Contract" := VStr "Three year"]} = Ok []
  /\ FilterInvalidContract.process {["tenure" := VStr "3"]} = Ok []
  /\ FilterInvalidContract.process {["Contract" := VNone]} = Ok [].
Proof.
  split; [|split].
  - apply (FilterInvalidContract_drops_invalid {["Contract" := VStr "Three year"]}).
    intros s [= <-]. rewrite elem_of_valid_contracts.
    intros [? | [? | ?]]; discriminate.
  - apply (FilterInvalidContract_drops_invalid {["tenure" := VStr "3"]}).
    intros s Hs. discriminate.
  - apply (FilterInvalidContract_drops_invalid {["Contract" := VNone]}).
    intros s Hs. discriminate.
Defined.

(** ** TotalCharges imputer *)

Example default_value_str_parses :
  PyFloat.of_string FillTotalCharges.default_value_str
  = Some FillTotalCharges.default_value.
Proof. reflexivity. Qed.

Example replace_spaces_1_234 :
  Str.replace " " FillTotalCharges.default_value_str "1 234" = "12279.0234".
Proof. reflexivity. Qed.

Lemma FillTotalCharges_blank (cfg : config.t) (element : record) :
  config.FEATURE_TO_MODIFY cfg = "TotalCharges" ->
  (element !! "TotalCharges" = None
   \/ element !! "TotalCharges" = Some VNone
   \/ element !! "TotalCharges" = Some (VStr "")
   \/ exists f, element !! "TotalCharges" = Some (VFloat f)
               /\ is_nan f = true) ->
  FillTotalCharges.process cfg element
  = Ok [<["TotalCharges" := VFloat 2279.0%float]> element].
Proof.
  intros Hk H. unfold FillTotalCharges.process. rewrite Hk.
  destruct H as [H | [H | [H | (f & H & Hf)]]].
  - by rewrite (get_None _ _ _ H).
  - by rewrite (get_Some _ _ _ _ H).
  - by rewrite (get_Some _ _ _ _ H).
  - rewrite (get_Some _ _ _ _ H). simpl. by rewrite Hf.
Qed.

Lemma FillTotalCharges_string (cfg : config.t) (element : record) s :
  config.FEATURE_TO_MODIFY cfg = "TotalCharges" ->
  element !! "TotalCharges" = Some (VStr s) ->
  FillTotalCharges.process cfg element
  = Ok [<["TotalCharges" := VFloat (total_charges_of s)]> element].
Proof.
  intros Hk H. unfold FillTotalCharges.process. rewrite Hk.
  rewrite (get_Some _ _ _ _ H). simpl.
  destruct (String.eqb_spec s "") as [-> | Hne]; [reflexivity|].
  reflexivity.
Qed.

(** C3, as the code has it: for a record whose "TotalCharges" is absent,
    None, a float NaN or a string, the imputer raises nothing and yields the
    record with "TotalCharges" set to a float: 2279.0 when the value is
    absent, None, a float NaN or the empty string; otherwise the float read
    from the string once every space has been replaced by "2279.0", or
    2279.0 when that text is not a float literal.  The string "1 234" gives
    12279.0234.  The float read need not be finite. *)
Theorem FillTotalCharges_imputes (cfg : config.t) (element : record) :
  config.FEATURE_TO_MODIFY cfg = "TotalCharges" ->
  ((element !! "TotalCharges" = None
    \/ element !! "TotalCharges" = Some VNone
    \/ element !! "TotalCharges" = Some (VStr "")
    \/ exists f, element !! "TotalCharges" = Some (VFloat f)
                /\ is_nan f = true) ->
   FillTotalCharges.process cfg element
   = Ok [<["TotalCharges" := VFloat 2279.0%float]> element])
  /\ (forall s, element !! "TotalCharges" = Some (VStr s) ->
        FillTotalCharges.process cfg element
        = Ok [<["TotalCharges" :=
                 VFloat (match PyFloat.of_string
                                 (Str.replace " " "2279.0" s) with
                         | Some f => f
                         | None => 2279.0%float
                         end)]> element])
  /\ (element !! "TotalCharges" = Some (VStr "1 234") ->
        FillTotalCharges.process cfg element
        = Ok [<["TotalCharges" := VFloat 12279.0234%float]> element]).
Proof.
  intros Hk. split; [|split].
  - by apply FillTotalCharges_blank.
  - intros s Hs. by apply FillTotalCharges_string.
  - intros Hs. by rewrite (FillTotalCharges_string _ _ _ Hk Hs).
Qed.

Lemma FillTotalCharges_imputes_witness :
  FillTotalCharges.process example_config {["tenure" := VStr "1"]}
  = Ok [<["TotalCharges" := VFloat 2279.0%float]> {["tenure" := VStr "1"]}]
  /\ FillTotalCharges.process example_config {["TotalCharges" := VStr "1 234"]}
     = Ok [<["TotalCharges" := VFloat 12279.0234%float]>
             {["TotalCharges" := VStr "1 234"]}].
Proof.
  split.
  - apply (FillTotalCharges_imputes example_config {["tenure" := VStr "1"]});
      [reflexivity | left; reflexivity].
  - apply (FillTotalCharges_imputes example_config
             {["TotalCharges" := VStr "1 234"]}); reflexivity.
Defined.

(** Against C3 as stated: the string "inf" is a float literal, so the value
    stored is the infinite float, which is not finite. *)
Lemma FillTotalCharges_not_finite :
  FillTotalCharges.process example_config {["TotalCharges" := VStr "inf"]}
  = Ok [<["TotalCharges" := VFloat infinity]>
          {["TotalCharges" := VStr "inf"]}]
  /\ is_finite infinity = false.
Proof. split; reflexivity. Qed.

(** A float that is not NaN has no [replace] method: the imputer raises. *)
Example FillTotalCharges_float_value :
  FillTotalCharges.process example_config {["TotalCharges" := VFloat 29.85%float]}
  = Raise AttributeError.
Proof. reflexivity. Qed.

(** ** Tenure imputer *)

(** C4, as the code has it: the tenure imputer stores the reference mean
    when "tenure" is absent, None or a float NaN; 0.0 when it is the empty
    string; and [float(value)] for any other value (raising when the
    coercion raises).  The value stored for the missing case and the one
    stored for the empty string are different if the reference mean is not
    0.0 itself; with a reference mean of 0.0 they are the same. *)
Theorem FillTenureWithMean_cases (self : FillTenureWithMean.t)
    (element : record) :
  ((element !! "tenure" = None
    \/ element !! "tenure" = Some VNone
    \/ exists f, element !! "tenure" = Some (VFloat f) /\ is_nan f = true) ->
   FillTenureWithMean.process self element
   = Ok [<["tenure" := VFloat (FillTenureWithMean.tenure_mean self)]> element])
  /\ (element !! "tenure" = Some (VStr "") ->
      FillTenureWithMean.process self element
      = Ok [<["tenure" := VFloat 0.0%float]> element])
  /\ (forall v, element !! "tenure" = Some v ->
        v <> VNone -> is_float_nan v = false -> v <> VStr "" ->
        FillTenureWithMean.process self element
        = (f ← py_float v; Ok [<["tenure" := VFloat f]> element]))
  /\ (FillTenureWithMean.tenure_mean self <> 0.0%float ->
      forall missing empty : record,
        missing !! "tenure" = None ->
        empty !! "tenure" = Some (VStr "") ->
        exists out_missing out_empty,
          FillTenureWithMean.process self missing = Ok [out_missing]
          /\ FillTenureWithMean.process self empty = Ok [out_empty]
          /\ out_missing !! "tenure" <> out_empty !! "tenure").
Proof.
  unfold FillTenureWithMean.process.
  split; [|split; [|split]].
  - intros [H | [H | (f & H & Hf)]].
    + by rewrite (get_None _ _ _ H).
    + by rewrite (get_Some _ _ _ _ H).
    + rewrite (get_Some _ _ _ _ H). simpl. by rewrite Hf.
  - intros H. by rewrite (get_Some _ _ _ _ H).
  - intros v H Hnone Hnan Hempty.
    rewrite (get_Some _ _ _ _ H), Hnan, (getitem_Some _ _ _ H).
    destruct v as [|s|f|n]; try done.
    simpl. destruct (String.eqb_spec s "") as [-> | Hne]; done.
  - intros Hmean missing empty Hm He.
    rewrite (get_None _ _ _ Hm), (get_Some _ _ _ _ He). simpl.
    do 2 eexists. split; [reflexivity|]. split; [reflexivity|].
    rewrite !lookup_insert_eq. intros [= H]. by apply Hmean.
Qed.

Lemma example_mean_nonzero :
  FillTenureWithMean.tenure_mean example_tenure_stage <> 0.0%float.
Proof.
  intros H. apply (f_equal is_zero) in H. vm_compute in H. discriminate H.
Qed.

Lemma FillTenureWithMean_cases_witness :
  FillTenureWithMean.process example_tenure_stage {["Contract" := VStr "x"]}
  = Ok [<["tenure" := VFloat 32.5%float]> {["Contract" := VStr "x"]}]
  /\ FillTenureWithMean.process example_tenure_stage {["tenure" := VStr ""]}
     = Ok [<["tenure" := VFloat 0.0%float]> {["tenure" := VStr ""]}]
  /\ FillTenureWithMean.process example_tenure_stage {["tenure" := VStr "12"]}
     = Ok [<["tenure" := VFloat 12.0%float]> {["tenure" := VStr "12"]}]
  /\ exists out_missing out_empty,
       FillTenureWithMean.process example_tenure_stage
         {["Contract" := VStr "x"]} = Ok [out_missing]
       /\ FillTenureWithMean.process example_tenure_stage
            {["tenure" := VStr ""]} = Ok [out_empty]
       /\ out_missing !! "tenure" <> out_empty !! "tenure".
Proof.
  split; [|split; [|split]].
  - apply (FillTenureWithMean_cases example_tenure_stage
             {["Contract" := VStr "x"]}).
    left. reflexivity.
  - apply (FillTenureWithMean_cases example_tenure_stage
             {["tenure" := VStr ""]}).
    reflexivity.
  - pose proof (FillTenureWithMean_cases example_tenure_stage
                  {["tenure" := VStr "12"]}) as (_ & _ & H & _).
    rewrite (H (VStr "12")); [reflexivity | reflexivity | discriminate
                             | reflexivity | discriminate].
  - apply (FillTenureWithMean_cases example_tenure_stage ∅).
    + apply example_mean_nonzero.
    + reflexivity.
    + reflexivity.
Defined.

(** Against C4 as stated: with a reference mean of 0.0, a record without
    "tenure", one with None, one with a NaN and one with the empty string
    all leave the imputer with the same value 0.0 under "tenure". *)
Lemma FillTenureWithMean_zero_mean_same :
  FillTenureWithMean.process zero_mean_stage {["Contract" := VStr "x"]}
  = Ok [<["tenure" := VFloat 0.0%float]> {["Contract" := VStr "x"]}]
  /\ FillTenureWithMean.process zero_mean_stage {["tenure" := VNone]}
     = Ok [<["tenure" := VFloat 0.0%float]> {["tenure" := VNone]}]
  /\ FillTenureWithMean.process zero_mean_stage {["tenure" := VFloat nan]}
     = Ok [<["tenure" := VFloat 0.0%float]> {["tenure" := VFloat nan]}]
  /\ FillTenureWithMean.process zero_mean_stage {["tenure" := VStr ""]}
     = Ok [<["tenure" := VFloat 0.0%float]> {["tenure" := VStr ""]}]
  /\ (<["tenure" := VFloat 0.0%float]> {["Contract" := VStr "x"]} : record)
       !! "tenure"
     = (<["tenure" := VFloat 0.0%float]> {["tenure" := VStr ""]} : record)
         !! "tenure".
Proof. repeat split; reflexivity. Qed.

(** C5: when "tenure" is a non-empty string that is not a float literal, the
    tenure imputer raises ValueError; nothing catches it, so the step raises
    on every batch that holds the record, and so do the steps chained after
    it. *)
Theorem FillTenureWithMean_bad_string (self : FillTenureWithMean.t)
    (element : record) (s : string) :
  element !! "tenure" = Some (VStr s) ->
  s <> "" ->
  PyFloat.of_string s = None ->
  FillTenureWithMean.process self element = Raise ValueError
  /\ (forall before after,
        raises (beam_ParDo (FillTenureWithMean.process self)
                  (before ++ element :: after)))
  /\ (forall before after (rest : list record -> result (list string)),
        raises (rows ← beam_ParDo (FillTenureWithMean.process self)
                         (before ++ element :: after);
                rest rows)).
Proof.
  intros H Hne Hparse.
  assert (Hr : FillTenureWithMean.process self element = Raise ValueError).
  { unfold FillTenureWithMean.process.
    rewrite (get_Some _ _ _ _ H), (getitem_Some _ _ _ H). simpl.
    destruct (String.eqb_spec s "") as [-> | _]; [done|].
    by rewrite Hparse. }
  split; [done|]. split.
  - intros. apply beam_ParDo_raises. by exists ValueError.
  - intros. apply raises_bind, beam_ParDo_raises. by exists ValueError.
Qed.

Lemma FillTenureWithMean_bad_string_witness :
  FillTenureWithMean.process example_tenure_stage {["tenure" := VStr "abc"]}
  = Raise ValueError.
Proof.
  apply (FillTenureWithMean_bad_string example_tenure_stage
           {["tenure" := VStr "abc"]} "abc");
    [reflexivity | discriminate | reflexivity].
Defined.

(** ** Feature filter *)

Lemma dict_of_keys_present (keys : list string) (element acc : record) :
  (forall k, k ∈ keys -> is_Some (element !! k)) ->
  exists out,
    dict_of_keys keys element acc = Ok out
    /\ forall k, out !! k = if decide (k ∈ keys) then element !! k
                            else acc !! k.
Proof.
  revert acc. induction keys as [|key keys IH]; intros acc Hall;
    cbn [dict_of_keys].
  - exists acc. split; [done|]. intros k.
    case_decide as Hin; [by apply elem_of_nil in Hin | done].
  - destruct (Hall key) as [v Hv]; [by left|].
    rewrite (getitem_Some _ _ _ Hv), bind_Ok.
    destruct (IH (<[key := v]> acc)) as (out & Hout & Hlook).
    { intros k Hk. apply Hall. by right. }
    exists out. split; [done|]. intros k. rewrite Hlook.
    destruct (decide (k ∈ keys)) as [Hin | Hnin];
      destruct (decide (k ∈ key :: keys)) as [Hin' | Hnin'].
    + done.
    + exfalso. apply Hnin'. by right.
    + apply elem_of_cons in Hin' as [-> | Hin']; [|done].
      by rewrite lookup_insert_eq.
    + rewrite lookup_insert_ne; [done|].
      intros <-. apply Hnin'. by left.
Qed.

Lemma dict_of_keys_absent (keys : list string) (element acc : record) k :
  k ∈ keys -> element !! k = None ->
  dict_of_keys keys element acc = Raise KeyError.
Proof.
  revert acc. induction keys as [|key keys IH]; intros acc Hin Hk; simpl.
  - by apply elem_of_nil in Hin.
  - destruct (element !! key) as [v|] eqn:Hv.
    + rewrite (getitem_Some _ _ _ Hv), bind_Ok. apply IH; [|done].
      apply elem_of_cons in Hin as [-> | Hin]; [congruence | done].
    + by rewrite (getitem_None _ _ Hv).
Qed.

(** C6, as the code has it: when every key of the allow-list is in the
    record, the feature filter returns a new record that holds exactly the
    allow-list keys with the values they had; when a key of the allow-list
    is absent from the record, the filter raises KeyError. *)
Theorem filter_features_strict (cfg : config.t) (element : record) :
  ((forall k, k ∈ config.FEATURES_AFTER_CONTRACT cfg ->
              is_Some (element !! k)) ->
   exists out,
     filter_features cfg element = Ok out
     /\ forall k, out !! k =
                    if decide (k ∈ config.FEATURES_AFTER_CONTRACT cfg)
                    then element !! k else None)
  /\ (forall k, k ∈ config.FEATURES_AFTER_CONTRACT cfg ->
                element !! k = None ->
                filter_features cfg element = Raise KeyError).
Proof.
  unfold filter_features. split.
  - intros Hall.
    destruct (dict_of_keys_present _ element ∅ Hall) as (out & Hout & Hlook).
    exists out. split; [done|]. intros k. rewrite Hlook.
    by case_decide.
  - intros k Hin Hk. by apply (dict_of_keys_absent _ _ _ k).
Qed.

Lemma filter_features_strict_witness :
  (exists out,
     filter_features example_config example_row = Ok out
     /\ forall k, out !! k =
                    if decide (k ∈ config.FEATURES_AFTER_CONTRACT example_config)
                    then example_row !! k else None)
  /\ filter_features example_config {["tenure" := VStr "5"]} = Raise KeyError.
Proof.
  split.
  - apply (filter_features_strict example_config example_row).
    intros k Hk. simpl in Hk.
    rewrite !elem_of_cons, elem_of_nil in Hk.
    destruct Hk as [-> | [-> | [-> | [-> | []]]]]; by eexists.
  - apply (proj2 (filter_features_strict example_config
                    {["tenure" := VStr "5"]}) "Contract").
    + simpl. rewrite !elem_of_cons. tauto.
    + reflexivity.
Defined.

(** Against C6 as stated: with "Contract" in the allow-list and a record
    without that key, the filter raises KeyError instead of leaving the key
    out. *)
Lemma filter_features_absent_key_raises :
  "Contract" ∈ config.FEATURES_AFTER_CONTRACT example_config
  /\ ({["tenure" := VStr "5"]} : record) !! "Contract" = None
  /\ filter_features example_config {["tenure" := VStr "5"]} = Raise KeyError.
Proof.
  split; [|split]; try reflexivity.
  simpl. rewrite !elem_of_cons. tauto.
Qed.

(** ** Contract null guard *)

Lemma HandleContract_present (element : record) (v : value) :
  element !! "Contract" = Some v ->
  HandleContract.process element = Raise AttributeError.
Proof.
  intros H. unfold HandleContract.process.
  by rewrite (getitem_Some _ _ _ H).
Qed.

(** C7: on a record whose "Contract" is None, the null guard stops at
    [pd.isna(...).any()] with AttributeError, before its
    [raise ValueError]; the same happens for a NaN and for a valid value. *)
Theorem HandleContract_null_contract :
  HandleContract.process {["Contract" := VNone]} = Raise AttributeError
  /\ HandleContract.process {["Contract" := VFloat nan]} = Raise AttributeError
  /\ HandleContract.process {["Contract" := VStr "One year"]}
     = Raise AttributeError
  /\ HandleContract.process {["Contract" := VNone]} <> Raise ValueError.
Proof. repeat split; try reflexivity. discriminate. Qed.

(** ** PhoneService imputer and encoder *)

Lemma lower_char_y (c : ascii) :
  Str.lower_char c = "y"%char -> c = "y"%char \/ c = "Y"%char.
Proof.
  destruct c as [[] [] [] [] [] [] [] []]; vm_compute; intros H;
    try discriminate H; auto.
Qed.

Lemma lower_char_e (c : ascii) :
  Str.lower_char c = "e"%char -> c = "e"%char \/ c = "E"%char.
Proof.
  destruct c as [[] [] [] [] [] [] [] []]; vm_compute; intros H;
    try discriminate H; auto.
Qed.

Lemma lower_char_s (c : ascii) :
  Str.lower_char c = "s"%char -> c = "s"%char \/ c = "S"%char.
Proof.
  destruct c as [[] [] [] [] [] [] [] []]; vm_compute; intros H;
    try discriminate H; auto.
Qed.

Lemma lower_yes (s : string) : Str.lower s = "yes" <-> s ∈ any_case_yes.
Proof.
  unfold any_case_yes. rewrite !elem_of_cons, elem_of_nil. split.
  - destruct s as [|c1 [|c2 [|c3 [|c4 s]]]]; simpl; try discriminate.
    intros [= H1 H2 H3].
    destruct (lower_char_y _ H1) as [-> | ->],
             (lower_char_e _ H2) as [-> | ->],
             (lower_char_s _ H3) as [-> | ->]; tauto.
  - intros H. repeat (destruct H as [-> | H]; [reflexivity|]). destruct H.
Qed.

Lemma MapPhoneService_string (element : record) (s : string) :
  element !! "PhoneService" = Some (VStr s) ->
  MapPhoneService.process element
  = Ok [<["PhoneService" :=
           VInt (if bool_decide (s ∈ any_case_yes) then 1 else 0)]> element].
Proof.
  intros H. unfold MapPhoneService.process.
  rewrite (getitem_Some _ _ _ H). simpl.
  destruct (String.eqb_spec (Str.lower s) "yes") as [Hy | Hn].
  - by rewrite bool_decide_eq_true_2 by by apply lower_yes.
  - by rewrite bool_decide_eq_false_2 by by rewrite <- lower_yes.
Qed.

Lemma FillTenureWithMean_keeps (self : FillTenureWithMean.t)
    (element : record) rows k :
  FillTenureWithMean.process self element = Ok rows ->
  k <> "tenure" ->
  exists out, rows = [out] /\ out !! k = element !! k.
Proof.
  unfold FillTenureWithMean.process. intros H Hk.
  repeat match type of H with
         | (if ?b then _ else _) = _ => destruct b
         | (?m ≫= _) = _ => destruct m; simpl in H
         end;
    try discriminate H; injection H as <-;
    eexists; (split; [reflexivity|]); by rewrite lookup_insert_ne.
Qed.

(** C8: when "PhoneService" is absent, None or a float NaN, the imputer
    sets it to the string "No"; the encoder turns a string into 1 when it is
    "yes" in some letter case and into 0 otherwise; so such a record leaves
    the encoder with "PhoneService" equal to 0, also when the tenure step,
    which runs between the two, has handled it. *)
Theorem PhoneService_missing_becomes_zero (element : record) :
  (element !! "PhoneService" = None
   \/ element !! "PhoneService" = Some VNone
   \/ exists f, element !! "PhoneService" = Some (VFloat f)
               /\ is_nan f = true) ->
  FillPhoneService.process element
  = Ok [<["PhoneService" := VStr "No"]> element]
  /\ (forall (r : record) s, r !! "PhoneService" = Some (VStr s) ->
        MapPhoneService.process r
        = Ok [<["PhoneService" :=
                 VInt (if bool_decide (s ∈ any_case_yes) then 1 else 0)]> r])
  /\ (rows ← FillPhoneService.process element;
      beam_ParDo MapPhoneService.process rows)
     = Ok [<["PhoneService" := VInt 0]> element]
  /\ (forall self after_tenure,
        (rows ← FillPhoneService.process element;
         beam_ParDo (FillTenureWithMean.process self) rows)
        = Ok after_tenure ->
        exists out,
          beam_ParDo MapPhoneService.process after_tenure = Ok [out]
          /\ out !! "PhoneService" = Some (VInt 0)).
Proof.
  intros Hmiss.
  assert (Hfill : FillPhoneService.process element
                  = Ok [<["PhoneService" := VStr "No"]> element]).
  { unfold FillPhoneService.process.
    destruct Hmiss as [H | [H | (f & H & Hf)]].
    - by rewrite (get_None _ _ _ H).
    - by rewrite (get_Some _ _ _ _ H).
    - rewrite (get_Some _ _ _ _ H). simpl. by rewrite Hf. }
  split; [done|]. split; [apply MapPhoneService_string|]. split.
  - rewrite Hfill, bind_Ok. simpl.
    rewrite (MapPhoneService_string _ "No") by apply lookup_insert_eq.
    simpl. by rewrite insert_insert_eq.
  - intros self after_tenure. rewrite Hfill, bind_Ok. simpl.
    destruct (FillTenureWithMean.process self _) as [ys|e] eqn:Hten;
      simpl; [|discriminate].
    intros [= <-].
    destruct (FillTenureWithMean_keeps _ _ _ "PhoneService" Hten)
      as (out & -> & Hout); [done|].
    rewrite lookup_insert_eq in Hout. simpl.
    rewrite (MapPhoneService_string _ "No" Hout). simpl.
    eexists. split; [reflexivity|]. apply lookup_insert_eq.
Qed.

Lemma PhoneService_missing_becomes_zero_witness :
  (rows ← FillPhoneService.process {["tenure" := VStr "3"]};
   beam_ParDo MapPhoneService.process rows)
  = Ok [<["PhoneService" := VInt 0]> {["tenure" := VStr "3"]}].
Proof.
  apply (PhoneService_missing_becomes_zero {["tenure" := VStr "3"]}).
  left. reflexivity.
Defined.

(** ** Empty input *)

Lemma append_cons (c : ascii) (h r : string) :
  String c h +:+ r = String c (h +:+ r).
Proof. reflexivity. Qed.

Lemma universal_newlines_app (h r : string) :
  no_eol h = true ->
  universal_newlines (h +:+ r) = h +:+ universal_newlines r.
Proof.
  unfold no_eol. induction h as [|c h IH]; intros Hh; [done|].
  cbn [Str.all] in Hh. apply andb_prop in Hh as [Hc Hh].
  apply andb_prop in Hc as [_ Hcr]. apply negb_true_iff in Hcr.
  rewrite !append_cons. cbn [universal_newlines]. rewrite Hcr. by rewrite IH.
Qed.

Lemma isspace_LF : Str.isspace LF = true.
Proof. reflexivity. Qed.

Lemma universal_newlines_isspace (r : string) :
  Str.all Str.isspace r = true ->
  Str.all Str.isspace (universal_newlines r) = true.
Proof.
  induction r as [|c r IH]; intros Hr; [done|].
  cbn [Str.all] in Hr. apply andb_prop in Hr as [Hc Hr].
  specialize (IH Hr). cbn [universal_newlines].
  destruct (Ascii.eqb c CR).
  - destruct r as [|c' r']; [done|].
    destruct (Ascii.eqb c' LF); [done|].
    cbn [Str.all]. by rewrite isspace_LF, IH.
  - cbn [Str.all]. by rewrite Hc, IH.
Qed.

Lemma keepends_app_tail (h r : string) :
  no_eol h = true ->
  tail (keepends (h +:+ r)) = tail (keepends r).
Proof.
  unfold no_eol. induction h as [|c h IH]; intros Hh; [done|].
  cbn [Str.all] in Hh. apply andb_prop in Hh as [Hc Hh].
  apply andb_prop in Hc as [Hlf _]. apply negb_true_iff in Hlf.
  rewrite append_cons. cbn [keepends]. rewrite Hlf, <- (IH Hh).
  by destruct (keepends (h +:+ r)).
Qed.

Lemma keepends_isspace (r : string) :
  Str.all Str.isspace r = true ->
  Forall (fun l => Str.all Str.isspace l = true) (keepends r).
Proof.
  induction r as [|c r IH]; intros Hr; [constructor|].
  cbn [Str.all] in Hr. apply andb_prop in Hr as [Hc Hr].
  specialize (IH Hr). cbn [keepends].
  destruct (Ascii.eqb c LF).
  - constructor; [|done]. cbn [Str.all]. by rewrite Hc.
  - destruct (keepends r) as [|l ls]; constructor.
    + cbn [Str.all]. by rewrite Hc.
    + constructor.
    + inversion IH; subst. cbn [Str.all]. by rewrite Hc.
    + by inversion IH.
Qed.

Lemma lstrip_by_all (sp : ascii -> bool) (s : string) :
  Str.all sp s = true -> Str.lstrip_by sp s = "".
Proof.
  induction s as [|c s IH]; intros H; [done|].
  cbn [Str.all] in H. apply andb_prop in H as [Hc Hs].
  cbn [Str.lstrip_by]. rewrite Hc. by apply IH.
Qed.

Lemma strip_blank (s : string) :
  Str.all Str.isspace s = true -> Str.strip s = "".
Proof.
  intros H. unfold Str.strip, Str.strip_by. by rewrite lstrip_by_all.
Qed.

Lemma blank_lines_forallb (ls : list string) :
  Forall (fun l => Str.all Str.isspace l = true) ls ->
  forallb (fun line => String.eqb (Str.strip line) "") ls = true.
Proof.
  induction 1 as [|l ls Hl _ IH]; [done|].
  cbn [forallb]. by rewrite (strip_blank _ Hl), IH.
Qed.

Lemma is_csv_empty_header_only (w : world) (file_path header rest : string) :
  files w !! file_path = Some (header +:+ rest) ->
  no_eol header = true ->
  Str.all Str.isspace rest = true ->
  is_csv_empty w file_path = Ok true.
Proof.
  intros Hf Hh Hr. unfold is_csv_empty, open_read. rewrite Hf, bind_Ok.
  f_equal. unfold readlines.
  rewrite universal_newlines_app, keepends_app_tail by done.
  apply blank_lines_forallb. apply Forall_tail.
  by apply keepends_isspace, universal_newlines_isspace.
Qed.

(** C9: when the input file is a first line (possibly empty, possibly
    without terminator) followed only by white space, so that every line
    after the first is blank, [run_pipeline] returns False, prints the single
    diagnostic and leaves the files as they were: no output file is written
    and no step of the chain runs. *)
Theorem run_pipeline_header_only (cfg : config.t)
    (tenure_stage : FillTenureWithMean.t) (str_float : float -> string)
    (input_file output_file db_out_suffix : string) (w : world)
    (header rest : string) :
  files w !! input_file = Some (header +:+ rest) ->
  no_eol header = true ->
  Str.all Str.isspace rest = true ->
  run_pipeline cfg tenure_stage str_float
    input_file output_file db_out_suffix w
  = (Ok false,
     {| files := files w;
        stdout := stdout w
                  ++ [input_file +:+ " is empty or only contains a header."] |}).
Proof.
  intros Hf Hh Hr. unfold run_pipeline.
  by rewrite (is_csv_empty_header_only _ _ _ _ Hf Hh Hr).
Qed.

Lemma run_pipeline_header_only_witness :
  run_pipeline example_config example_tenure_stage (fun _ => "")
    "in.csv" "out" ".csv" header_only_world
  = (Ok false,
     {| files := files header_only_world;
        stdout := ["in.csv is empty or only contains a header."] |}).
Proof.
  apply (run_pipeline_header_only example_config example_tenure_stage
           (fun _ => "") "in.csv" "out" ".csv" header_only_world
           "customerID,tenure" (String LF (String " " (String LF ""))));
    reflexivity.
Defined.

(** ** Missing leading column *)

Lemma index_of_not_elem (target : string) (columns : list string) :
  target ∉ columns -> index_of target columns = None.
Proof.
  induction columns as [|c columns IH]; intros Hnin; [done|].
  cbn [index_of]. destruct (String.eqb_spec c target) as [-> | Hne].
  - exfalso. apply Hnin. by left.
  - rewrite IH; [done|]. intros Hin. apply Hnin. by right.
Qed.

Lemma find_leading_column_index_absent (header target_column : string) :
  target_column ∉ Str.split "," header ->
  find_leading_column_index header target_column = Raise ValueError.
Proof.
  intros H. unfold find_leading_column_index.
  by rewrite (index_of_not_elem _ _ H).
Qed.

Lemma is_csv_empty_data (w : world) (file_path content : string) :
  files w !! file_path = Some content ->
  Exists (fun line => Str.strip line <> "") (tail (readlines content)) ->
  is_csv_empty w file_path = Ok false.
Proof.
  intros Hf Hdata. unfold is_csv_empty, open_read. rewrite Hf, bind_Ok.
  f_equal. induction Hdata as [line ls Hline | line ls _ IH]; cbn [forallb].
  - by destruct (String.eqb_spec (Str.strip line) "").
  - rewrite IH. apply andb_false_r.
Qed.

(** C10: when the input file has data (some line after the first is not
    blank) and the configured leading column is not one of the
    comma-separated columns of its first line, [run_pipeline] raises
    ValueError where it looks the column up: it returns no boolean, only the
    "contains data" line has been printed, and the files are as they were,
    so no row has been processed and nothing has been written. *)
Theorem run_pipeline_leading_column_missing (cfg : config.t)
    (tenure_stage : FillTenureWithMean.t) (str_float : float -> string)
    (input_file output_file db_out_suffix : string) (w : world)
    (content : string) :
  files w !! input_file = Some content ->
  Exists (fun line => Str.strip line <> "") (tail (readlines content)) ->
  config.LEADING_COLUMN cfg ∉ Str.split "," (Str.strip (readline content)) ->
  run_pipeline cfg tenure_stage str_float
    input_file output_file db_out_suffix w
  = (Raise ValueError,
     {| files := files w;
        stdout := stdout w ++ [input_file +:+ " contains data."] |}).
Proof.
  intros Hf Hdata Hcol. unfold run_pipeline.
  rewrite (is_csv_empty_data _ _ _ Hf Hdata).
  unfold open_read, print. cbn [files]. rewrite Hf, bind_Ok.
  by rewrite (find_leading_column_index_absent _ _ Hcol).
Qed.

Lemma run_pipeline_leading_column_missing_witness :
  run_pipeline example_config example_tenure_stage (fun _ => "")
    "in.csv" "out" ".csv" no_leading_column_world
  = (Raise ValueError,
     {| files := files no_leading_column_world;
        stdout := ["in.csv contains data."] |}).
Proof.
  apply (run_pipeline_leading_column_missing example_config
           example_tenure_stage (fun _ => "") "in.csv" "out" ".csv"
           no_leading_column_world
           ("id,tenure" +:+ String LF ("7,12" +:+ String LF ""))).
  - reflexivity.
  - change (tail (readlines _)) with ["7,12" +:+ String LF ""].
    apply Exists_cons_hd. discriminate.
  - change (Str.split _ _) with ["id"; "tenure"].
    rewrite !elem_of_cons, elem_of_nil.
    intros [H | [H | []]]; discriminate H.
Defined.

(** ** Whole runs *)

(** A row whose tenure is not a number makes the run raise; nothing is
    written. *)
Example run_pipeline_bad_tenure (str_float : float -> string) :
  run_pipeline example_config example_tenure_stage str_float
    "in.csv" "out" ".csv" bad_tenure_world
  = (Raise ValueError,
     {| files := files bad_tenure_world;
        stdout := ["in.csv contains data."] |}).
Proof. reflexivity. Qed.

(** A record with a None "Contract" is dropped by the chain as
    [run_pipeline] builds it: the null guard is not one of its steps. *)
Example null_contract_dropped (cfg : config.t)
    (tenure_stage : FillTenureWithMean.t) (str_float : float -> string) :
  from_contract_filter cfg tenure_stage str_float [{["Contract" := VNone]}]
  = Ok [].
Proof. reflexivity. Qed.

(** A row with empty tenure, PhoneService and TotalCharges: the line
    written holds tenure 0.0, PhoneService 0 and TotalCharges 2279.0. *)
Example run_pipeline_one_row (str_float : float -> string) :
  let r := run_pipeline example_config example_tenure_stage str_float
             "in.csv" "out" ".csv" one_row_world in
  fst r = Ok true
  /\ files (snd r) !! "out.csv"
     = Some (Str.join ""
               [ "tenure,PhoneService,TotalCharges,One year,Two year,Month-to-month"
                 +:+ String LF "";
                 Str.join ","
                   [str_float 0.0%float; "0"; str_float 2279.0%float;
                    "0"; "0"; "1"]
                 +:+ String LF "" ]).
Proof. split; reflexivity. Qed.

(** * Further properties of the transforms *)

(** ** Contract validator and encoder *)

(** The validator yields a record untouched exactly when its "Contract" is
    one of the three valid strings, and yields nothing otherwise; it never
    raises and never changes a record. *)
Theorem FilterInvalidContract_pass_or_drop (element : record) :
  (FilterInvalidContract.process element = Ok [element]
   /\ exists c, element !! "Contract" = Some (VStr c)
                /\ c ∈ FilterInvalidContract.valid_contracts)
  \/ (FilterInvalidContract.process element = Ok []
      /\ forall c, element !! "Contract" = Some (VStr c) ->
                   c ∉ FilterInvalidContract.valid_contracts).
Proof.
  unfold FilterInvalidContract.process.
  destruct (FilterInvalidContract.is_valid _) eqn:Hv; simpl.
  - left. split; [done|].
    apply is_valid_true in Hv as (c & Hc & Hin). exists c. split; [|done].
    unfold get in Hc. by destruct (element !! "Contract") as [v|]; subst.
  - right. split; [done|]. intros c Hc Hin.
    rewrite (get_Some _ _ _ _ Hc) in Hv. simpl in Hv.
    by rewrite bool_decide_eq_true_2 in Hv.
Qed.

(** The encoder raises exactly when the key "Contract" is absent, and then
    it is KeyError. *)
Theorem OHEContract_raises_iff (element : record) (e : exn) :
  OHEContract.process element = Raise e
  <-> element !! "Contract" = None /\ e = KeyError.
Proof.
  unfold OHEContract.process, getitem. split.
  - destruct (element !! "Contract"); simpl; [discriminate|].
    by intros [= <-].
  - intros [-> ->]. reflexivity.
Qed.

Lemma mapping_get_invalid (v : value) (d : record) :
  (forall c, v = VStr c -> c ∉ FilterInvalidContract.valid_contracts) ->
  OHEContract.mapping_get v d = d.
Proof.
  intros Hinv. destruct v as [|s|f|n]; try reflexivity.
  specialize (Hinv s eq_refl). rewrite elem_of_valid_contracts in Hinv.
  unfold OHEContract.mapping_get, OHEContract.contract_mapping.
  rewrite !lookup_insert_ne by (intros <-; tauto).
  rewrite lookup_singleton_ne by (intros <-; tauto). done.
Qed.

(** A "Contract" that is present but is not one of the three valid strings
    (None, a number, another string) gives the all-zero indicators: the
    three indicator keys are 0, "Contract" is removed and the other keys
    keep their values. *)
Theorem OHEContract_unrecognized (element : record) (v : value) :
  element !! "Contract" = Some v ->
  (forall c, v = VStr c -> c ∉ FilterInvalidContract.valid_contracts) ->
  exists out,
    OHEContract.process element = Ok [out]
    /\ (forall k, k ∈ FilterInvalidContract.valid_contracts ->
                  out !! k = Some (VInt 0))
    /\ out !! "Contract" = None
    /\ (forall k, k ∉ FilterInvalidContract.valid_contracts ->
                  k <> "Contract" -> out !! k = element !! k).
Proof.
  intros Hc Hinv. unfold OHEContract.process.
  rewrite (getitem_Some _ _ _ Hc), bind_Ok, (mapping_get_invalid _ _ Hinv).
  eexists. split; [reflexivity|]. split; [|split].
  - intros k Hk. apply elem_of_valid_contracts in Hk.
    assert (k <> "Contract") by (destruct Hk as [-> | [-> | ->]]; done).
    rewrite lookup_delete_ne by done.
    rewrite lookup_union, lookup_indicators.
    destruct Hk as [-> | [-> | ->]]; repeat case_decide; try done;
      apply union_Some_l.
  - apply lookup_delete_eq.
  - intros k Hk Hne. rewrite elem_of_valid_contracts in Hk.
    rewrite lookup_delete_ne by done.
    rewrite lookup_union, lookup_indicators.
    repeat case_decide; try tauto. by destruct (element !! k).
Qed.

Lemma OHEContract_unrecognized_witness :
  exists out,
    OHEContract.process {["Contract" := VStr "Three year"]} = Ok [out]
    /\ (forall k, k ∈ FilterInvalidContract.valid_contracts ->
                  out !! k = Some (VInt 0))
    /\ out !! "Contract" = None
    /\ (forall k, k ∉ FilterInvalidContract.valid_contracts ->
                  k <> "Contract" ->
                  out !! k
                  = ({["Contract" := VStr "Three year"]} : record) !! k).
Proof.
  apply (OHEContract_unrecognized _ (VStr "Three year")).
  - reflexivity.
  - intros c [= <-]. rewrite elem_of_valid_contracts.
    intros [H | [H | H]]; discriminate H.
Defined.

Lemma OHEContract_valid_lookup (element : record) (c : string) :
  element !! "Contract" = Some (VStr c) ->
  c ∈ FilterInvalidContract.valid_contracts ->
  OHEContract.process element
  = Ok [delete "Contract"
          (OHEContract.indicators
             (if decide (c = "One year") then 1 else 0)
             (if decide (c = "Two year") then 1 else 0)
             (if decide (c = "Month-to-month") then 1 else 0) ∪ element)].
Proof.
  intros Hc Hin. unfold OHEContract.process.
  by rewrite (getitem_Some _ _ _ Hc), bind_Ok, (mapping_get_valid _ _ Hin).
Qed.

(** Validator then encoder, on any record: the pair never raises; it yields
    nothing, or one record with the indicator of the record's contract at 1,
    the other two at 0 and no "Contract" key. *)
Theorem validator_then_encoder (element : record) :
  (rows ← FilterInvalidContract.process element;
   beam_ParDo OHEContract.process rows) = Ok []
  \/ exists c out,
       element !! "Contract" = Some (VStr c)
       /\ c ∈ FilterInvalidContract.valid_contracts
       /\ (rows ← FilterInvalidContract.process element;
           beam_ParDo OHEContract.process rows) = Ok [out]
       /\ out !! c = Some (VInt 1)
       /\ (forall k, k ∈ FilterInvalidContract.valid_contracts -> k <> c ->
                     out !! k = Some (VInt 0))
       /\ out !! "Contract" = None.
Proof.
  unfold FilterInvalidContract.process.
  destruct (FilterInvalidContract.is_valid _) eqn:Hv; simpl; [right | by left].
  apply is_valid_true in Hv as (c & Hc & Hin).
  assert (Hl : element !! "Contract" = Some (VStr c)).
  { unfold get in Hc. by destruct (element !! "Contract") as [v|]; subst. }
  clear Hc. rename Hl into Hc.
  exists c. eexists. split; [done|]. split; [done|].
  rewrite (OHEContract_valid_lookup _ _ Hc Hin). simpl.
  split; [reflexivity|].
  apply elem_of_valid_contracts in Hin.
  split; [|split].
  - destruct Hin as [-> | [-> | ->]];
      rewrite lookup_delete_ne by done;
      rewrite lookup_union, lookup_indicators;
      repeat case_decide; try done; apply union_Some_l.
  - intros k Hk Hne. apply elem_of_valid_contracts in Hk.
    assert (k <> "Contract") by (destruct Hk as [-> | [-> | ->]]; done).
    rewrite lookup_delete_ne by done.
    rewrite lookup_union, lookup_indicators.
    destruct Hk as [-> | [-> | ->]], Hin as [-> | [-> | ->]];
      repeat case_decide; try done; apply union_Some_l.
  - apply lookup_delete_eq.
Qed.

(** ** TotalCharges imputer *)

Lemma FillTotalCharges_shape (cfg : config.t) (element : record) rows :
  FillTotalCharges.process cfg element = Ok rows ->
  exists f, rows = [<["TotalCharges" := VFloat f]> element].
Proof.
  unfold FillTotalCharges.process.
  destruct (FillTotalCharges.replace_spaces _) as [s|e]; simpl;
    [|discriminate].
  intros [= <-]. by eexists.
Qed.

(** With the configured key being "TotalCharges", the imputer raises exactly
    when the value is an int or a float that is not NaN, and the exception is
    then AttributeError ([replace] is a method of [str] only). *)
Theorem FillTotalCharges_raises_iff (cfg : config.t) (element : record)
    (e : exn) :
  config.FEATURE_TO_MODIFY cfg = "TotalCharges" ->
  FillTotalCharges.process cfg element = Raise e
  <-> e = AttributeError
      /\ ((exists n, element !! "TotalCharges" = Some (VInt n))
          \/ (exists f, element !! "TotalCharges" = Some (VFloat f)
                        /\ is_nan f = false)).
Proof.
  intros Hk. unfold FillTotalCharges.process, get. rewrite Hk. split.
  - destruct (element !! "TotalCharges") as [[|s|f|n]|] eqn:Hv; simpl.
    + discriminate.
    + destruct (String.eqb s ""); discriminate.
    + destruct (is_nan f) eqn:Hf; simpl; [discriminate|].
      intros [= <-]. split; [done|]. right. by exists f.
    + intros [= <-]. split; [done|]. left. by exists n.
    + discriminate.
  - intros [-> [(n & ->) | (f & -> & Hf)]]; simpl; [done|].
    by rewrite Hf.
Qed.

Lemma FillTotalCharges_raises_iff_witness :
  FillTotalCharges.process example_config {["TotalCharges" := VInt 29]}
  = Raise AttributeError.
Proof.
  apply (FillTotalCharges_raises_iff example_config
           {["TotalCharges" := VInt 29]} AttributeError); [reflexivity|].
  split; [reflexivity|]. left. by exists 29.
Defined.

(** The imputer cannot be applied to its own output: the record it yields
    holds a float, so a second pass raises AttributeError, unless that float
    is NaN, which the second pass replaces by 2279.0. *)
Theorem FillTotalCharges_second_pass (cfg : config.t) (element out : record) :
  config.FEATURE_TO_MODIFY cfg = "TotalCharges" ->
  FillTotalCharges.process cfg element = Ok [out] ->
  exists f,
    out !! "TotalCharges" = Some (VFloat f)
    /\ (is_nan f = false ->
        FillTotalCharges.process cfg out = Raise AttributeError)
    /\ (is_nan f = true ->
        FillTotalCharges.process cfg out
        = Ok [<["TotalCharges" := VFloat 2279.0%float]> out]).
Proof.
  intros Hk Hout.
  destruct (FillTotalCharges_shape _ _ _ Hout) as (f & [= ->]).
  exists f. split; [apply lookup_insert_eq|]. split; intros Hf.
  - unfold FillTotalCharges.process, get.
    rewrite Hk, lookup_insert_eq. simpl. by rewrite Hf.
  - apply FillTotalCharges_blank; [done|]. right. right. right.
    exists f. by rewrite lookup_insert_eq.
Qed.

Lemma FillTotalCharges_second_pass_witness :
  exists f,
    (<["TotalCharges" := VFloat 10.5%float]>
       ({["TotalCharges" := VStr "10.5"]} : record)) !! "TotalCharges"
    = Some (VFloat f)
    /\ (is_nan f = false ->
        FillTotalCharges.process example_config
          (<["TotalCharges" := VFloat 10.5%float]>
             {["TotalCharges" := VStr "10.5"]})
        = Raise AttributeError)
    /\ (is_nan f = true ->
        FillTotalCharges.process example_config
          (<["TotalCharges" := VFloat 10.5%float]>
             {["TotalCharges" := VStr "10.5"]})
        = Ok [<["TotalCharges" := VFloat 2279.0%float]>
                (<["TotalCharges" := VFloat 10.5%float]>
                   {["TotalCharges" := VStr "10.5"]})]).
Proof.
  apply (FillTotalCharges_second_pass example_config
           {["TotalCharges" := VStr "10.5"]}); reflexivity.
Defined.

Lemma replace_no_occurrence (old : ascii) (new s : string) :
  Str.all (fun c => negb (Ascii.eqb c old)) s = true ->
  Str.replace old new s = s.
Proof.
  induction s as [|c s IH]; intros H; [done|].
  cbn [Str.all] in H. apply andb_prop in H as [Hc Hs].
  apply negb_true_iff in Hc. cbn [Str.replace]. rewrite Hc.
  by rewrite IH.
Qed.

(** A string without any space that [float] accepts is stored as the float
    it denotes: the replacement of spaces leaves it alone. *)
Theorem FillTotalCharges_numeric_string (cfg : config.t) (element : record)
    (s : string) (f : float) :
  config.FEATURE_TO_MODIFY cfg = "TotalCharges" ->
  element !! "TotalCharges" = Some (VStr s) ->
  Str.all (fun c => negb (Ascii.eqb c " ")) s = true ->
  PyFloat.of_string s = Some f ->
  FillTotalCharges.process cfg element
  = Ok [<["TotalCharges" := VFloat f]> element].
Proof.
  intros Hk Hs Hsp Hf. rewrite (FillTotalCharges_string _ _ _ Hk Hs).
  unfold total_charges_of. by rewrite (replace_no_occurrence _ _ _ Hsp), Hf.
Qed.

Lemma FillTotalCharges_numeric_string_witness :
  FillTotalCharges.process example_config {["TotalCharges" := VStr "1889.5"]}
  = Ok [<["TotalCharges" := VFloat 1889.5%float]>
          {["TotalCharges" := VStr "1889.5"]}].
Proof.
  apply (FillTotalCharges_numeric_string example_config
           {["TotalCharges" := VStr "1889.5"]} "1889.5"); reflexivity.
Defined.

(** ** PhoneService imputer and encoder *)

(** The PhoneService imputer never raises and yields one record; it leaves
    every other key alone, leaves the record as it is when "PhoneService"
    holds anything but None or a NaN, and applying it to its own output
    changes nothing. *)
Theorem FillPhoneService_idempotent (element : record) :
  exists out,
    FillPhoneService.process element = Ok [out]
    /\ FillPhoneService.process out = Ok [out]
    /\ (forall k, k <> "PhoneService" -> out !! k = element !! k)
    /\ (forall v, element !! "PhoneService" = Some v ->
                  is_none v = false -> is_float_nan v = false ->
                  out = element).
Proof.
  unfold FillPhoneService.process.
  destruct (is_none (get element "PhoneService" VNone)
            || is_float_nan (get element "PhoneService" VNone)) eqn:Hm.
  - eexists. split; [reflexivity|]. split; [|split].
    + unfold get. by rewrite lookup_insert_eq.
    + intros k Hk. by rewrite lookup_insert_ne.
    + intros v Hv Hn Hf. rewrite (get_Some _ _ _ _ Hv), Hn, Hf in Hm.
      discriminate Hm.
  - exists element. rewrite Hm. by repeat split.
Qed.

(** The PhoneService encoder raises KeyError when the key is absent and
    AttributeError when the value is not a string (None, a float, an int),
    and in no other case. *)
Theorem MapPhoneService_raises_iff (element : record) (e : exn) :
  MapPhoneService.process element = Raise e
  <-> (element !! "PhoneService" = None /\ e = KeyError)
      \/ (exists v, element !! "PhoneService" = Some v
                    /\ (forall s, v <> VStr s) /\ e = AttributeError).
Proof.
  unfold MapPhoneService.process, getitem. split.
  - destruct (element !! "PhoneService") as [[|s|f|n]|]; simpl;
      try discriminate; intros [= <-]; try (by left);
      right; eexists; by repeat split.
  - intros [[-> ->] | (v & -> & Hv & ->)]; [done|].
    destruct v as [|s|f|n]; try done. by destruct (Hv s).
Qed.

(** A record the encoder has produced holds an int under "PhoneService", so
    the encoder raises AttributeError on it: the step cannot run twice. *)
Theorem MapPhoneService_second_pass (element out : record) :
  MapPhoneService.process element = Ok [out] ->
  MapPhoneService.process out = Raise AttributeError.
Proof.
  unfold MapPhoneService.process at 1.
  destruct (getitem element "PhoneService") as [v|e]; simpl; [|discriminate].
  destruct (MapPhoneService.lower v) as [s|e]; simpl; [|discriminate].
  intros [= <-]. unfold MapPhoneService.process, getitem.
  by rewrite lookup_insert_eq.
Qed.

Lemma MapPhoneService_second_pass_witness :
  MapPhoneService.process
    (<["PhoneService" := VInt 1]> {["PhoneService" := VStr "Yes"]})
  = Raise AttributeError.
Proof.
  apply (MapPhoneService_second_pass {["PhoneService" := VStr "Yes"]}).
  reflexivity.
Defined.

(** Imputer then encoder on a record whose "PhoneService" is a string: the
    string is kept by the imputer and the pair yields the record with
    "PhoneService" set to 1 when the string is "yes" in some letter case and
    to 0 otherwise (so "No", "" and "y" all give 0). *)
Theorem PhoneService_string_encoded (element : record) (s : string) :
  element !! "PhoneService" = Some (VStr s) ->
  (rows ← FillPhoneService.process element;
   beam_ParDo MapPhoneService.process rows)
  = Ok [<["PhoneService" :=
           VInt (if bool_decide (s ∈ any_case_yes) then 1 else 0)]> element].
Proof.
  intros Hs. unfold FillPhoneService.process.
  rewrite (get_Some _ _ _ _ Hs). simpl.
  by rewrite (MapPhoneService_string _ _ Hs).
Qed.

Lemma PhoneService_string_encoded_witness :
  (rows ← FillPhoneService.process {["PhoneService" := VStr "YES"]};
   beam_ParDo MapPhoneService.process rows)
  = Ok [<["PhoneService" := VInt 1]> {["PhoneService" := VStr "YES"]}].
Proof.
  apply (PhoneService_string_encoded {["PhoneService" := VStr "YES"]} "YES").
  reflexivity.
Defined.

(** ** Tenure imputer *)

(** The tenure imputer raises in two cases only: ValueError on a non-empty
    string that is not a float literal, OverflowError on an int too large
    for a float. *)
Theorem FillTenureWithMean_raises_iff (self : FillTenureWithMean.t)
    (element : record) (e : exn) :
  FillTenureWithMean.process self element = Raise e
  <-> (exists s, element !! "tenure" = Some (VStr s) /\ s <> ""
                 /\ PyFloat.of_string s = None /\ e = ValueError)
      \/ (exists n, element !! "tenure" = Some (VInt n)
                    /\ PyFloat.of_int n = None /\ e = OverflowError).
Proof.
  unfold FillTenureWithMean.process, get, getitem. split.
  - destruct (element !! "tenure") as [[|s|f|n]|]; simpl; try discriminate.
    + destruct (String.eqb_spec s "") as [-> | Hne]; [discriminate|].
      destruct (PyFloat.of_string s) eqn:Hp; simpl; [discriminate|].
      intros [= <-]. left. by exists s.
    + destruct (is_nan f); discriminate.
    + destruct (PyFloat.of_int n) eqn:Hp; simpl; [discriminate|].
      intros [= <-]. right. by exists n.
  - intros [(s & -> & Hne & Hp & ->) | (n & -> & Hp & ->)]; simpl.
    + destruct (String.eqb_spec s "") as [-> | _]; [done|]. by rewrite Hp.
    + by rewrite Hp.
Qed.

Lemma FillTenureWithMean_shape (self : FillTenureWithMean.t)
    (element : record) rows :
  FillTenureWithMean.process self element = Ok rows ->
  exists f, rows = [<["tenure" := VFloat f]> element].
Proof.
  unfold FillTenureWithMean.process. intros H.
  repeat match type of H with
         | (if ?b then _ else _) = _ => destruct b
         | (?m ≫= _) = _ => destruct m; simpl in H
         end;
    try discriminate H; injection H as <-; by eexists.
Qed.

(** When the tenure imputer succeeds it yields the record with "tenure" set
    to a float and nothing else changed.  A second pass keeps that record
    when the float is not NaN, and replaces a NaN by the reference mean. *)
Theorem FillTenureWithMean_second_pass (self : FillTenureWithMean.t)
    (element : record) rows :
  FillTenureWithMean.process self element = Ok rows ->
  exists f,
    rows = [<["tenure" := VFloat f]> element]
    /\ FillTenureWithMean.process self (<["tenure" := VFloat f]> element)
       = Ok [<["tenure" :=
                VFloat (if is_nan f then FillTenureWithMean.tenure_mean self
                        else f)]> element].
Proof.
  intros H. destruct (FillTenureWithMean_shape _ _ _ H) as (f & ->).
  exists f. split; [done|].
  unfold FillTenureWithMean.process, get, getitem.
  rewrite lookup_insert_eq. simpl.
  destruct (is_nan f); simpl; by rewrite insert_insert_eq.
Qed.

Lemma FillTenureWithMean_second_pass_witness :
  exists f,
    [<["tenure" := VFloat 12.0%float]> ({["tenure" := VStr "12"]} : record)]
    = [<["tenure" := VFloat f]> {["tenure" := VStr "12"]}]
    /\ FillTenureWithMean.process example_tenure_stage
         (<["tenure" := VFloat f]> {["tenure" := VStr "12"]})
       = Ok [<["tenure" :=
                VFloat (if is_nan f
                        then FillTenureWithMean.tenure_mean example_tenure_stage
                        else f)]> {["tenure" := VStr "12"]}].
Proof.
  apply (FillTenureWithMean_second_pass example_tenure_stage
           {["tenure" := VStr "12"]}).
  reflexivity.
Defined.

(** ** Feature filter *)

Lemma dict_of_keys_Ok_present (keys : list string) (element acc out : record) :
  dict_of_keys keys element acc = Ok out ->
  forall k, k ∈ keys -> is_Some (element !! k).
Proof.
  intros Hok k Hin. destruct (element !! k) eqn:Hk; [by eexists|].
  by rewrite (dict_of_keys_absent _ _ _ _ Hin Hk) in Hok.
Qed.

Lemma filter_features_Ok_or_KeyError (cfg : config.t) (element : record) :
  (exists out, filter_features cfg element = Ok out)
  \/ filter_features cfg element = Raise KeyError.
Proof.
  unfold filter_features. generalize (∅ : record) as acc.
  induction (config.FEATURES_AFTER_CONTRACT cfg) as [|key keys IH];
    intros acc; cbn [dict_of_keys].
  - left. by eexists.
  - unfold getitem. destruct (element !! key); simpl; [apply IH | by right].
Qed.

(** Filtering is idempotent: the record the feature filter returns holds
    only allow-list keys, all of them, so filtering it again returns it
    unchanged. *)
Theorem filter_features_idempotent (cfg : config.t) (element out : record) :
  filter_features cfg element = Ok out ->
  filter_features cfg out = Ok out.
Proof.
  intros Hok. unfold filter_features in *.
  pose proof (dict_of_keys_Ok_present _ _ _ _ Hok) as Hall.
  destruct (dict_of_keys_present _ element ∅ Hall) as (out1 & Hout1 & Hl1).
  rewrite Hok in Hout1. injection Hout1 as <-.
  assert (Hall' : forall k, k ∈ config.FEATURES_AFTER_CONTRACT cfg ->
                            is_Some (out !! k)).
  { intros k Hk. rewrite Hl1. rewrite decide_True by done. by apply Hall. }
  destruct (dict_of_keys_present _ out ∅ Hall') as (out2 & Hout2 & Hl2).
  rewrite Hout2. f_equal. apply map_eq. intros k.
  rewrite Hl2, (Hl1 k). by case_decide.
Qed.

Lemma filter_features_idempotent_witness :
  filter_features example_config
    (<["tenure" := VStr "5"]>
       (<["PhoneService" := VStr "Yes"]>
          (<["Contract" := VStr "One year"]>
             {["TotalCharges" := VStr "10.5"]})))
  = Ok (<["tenure" := VStr "5"]>
          (<["PhoneService" := VStr "Yes"]>
             (<["Contract" := VStr "One year"]>
                {["TotalCharges" := VStr "10.5"]}))).
Proof.
  apply (filter_features_idempotent example_config example_row).
  vm_compute. reflexivity.
Defined.

(** ** Header and fields *)

Lemma index_of_Some (target : string) (columns : list string) (i : nat) :
  index_of target columns = Some i
  <-> columns !! i = Some target
      /\ forall j, (j < i)%nat -> columns !! j <> Some target.
Proof.
  revert i. induction columns as [|c columns IH]; intros i; cbn [index_of].
  - split; [discriminate | by intros [? _]].
  - destruct (String.eqb_spec c target) as [-> | Hne].
    + split.
      * intros [= <-]. split; [done|]. intros j Hj. lia.
      * intros [Hi Hfirst]. destruct i as [|i]; [done|].
        exfalso. apply (Hfirst O); [lia | done].
    + destruct i as [|i].
      * split.
        -- intros H. destruct (index_of target columns); discriminate H.
        -- intros [Hi _]. simpl in Hi. congruence.
      * transitivity (index_of target columns = Some i).
        { split; [|by intros ->].
          intros H. destruct (index_of target columns); simpl in H;
            congruence. }
        rewrite IH. split; intros [Hi Hfirst]; (split; [done|]).
        -- intros [|j] Hj; simpl; [congruence | apply Hfirst; lia].
        -- intros j Hj. apply (Hfirst (S j)). lia.
Qed.

(** When the leading column is in the header, the index returned is that of
    its first occurrence among the comma-separated columns, and conversely
    only that index is returned. *)
Theorem find_leading_column_index_first (header target_column : string)
    (i : nat) :
  find_leading_column_index header target_column = Ok i
  <-> Str.split "," header !! i = Some target_column
      /\ forall j, (j < i)%nat ->
                   Str.split "," header !! j <> Some target_column.
Proof.
  unfold find_leading_column_index. rewrite <- index_of_Some.
  destruct (index_of target_column (Str.split "," header)); split;
    congruence.
Qed.

Lemma split_free (sep : ascii) (s : string) :
  free_of sep s = true -> Str.split sep s = [s].
Proof.
  unfold free_of. induction s as [|c s IH]; intros H; [done|].
  cbn [Str.all] in H. apply andb_prop in H as [Hc Hs].
  apply negb_true_iff in Hc. cbn [Str.split]. rewrite Hc.
  by rewrite (IH Hs).
Qed.

Lemma split_app_sep (sep : ascii) (x rest : string) :
  free_of sep x = true ->
  Str.split sep (x +:+ String sep rest) = x :: Str.split sep rest.
Proof.
  unfold free_of. induction x as [|c x IH]; intros H.
  - change ("" +:+ String sep rest) with (String sep rest).
    cbn [Str.split]. by rewrite Ascii.eqb_refl.
  - cbn [Str.all] in H. apply andb_prop in H as [Hc Hs].
    apply negb_true_iff in Hc. rewrite append_cons.
    cbn [Str.split]. rewrite Hc. by rewrite (IH Hs).
Qed.

Lemma join_cons (sep x y : string) (l : list string) :
  Str.join sep (x :: y :: l) = x +:+ sep +:+ Str.join sep (y :: l).
Proof. reflexivity. Qed.

Lemma split_join (sep : ascii) (l : list string) :
  l <> [] ->
  Forall (fun x => free_of sep x = true) l ->
  Str.split sep (Str.join (String sep "") l) = l.
Proof.
  intros Hne Hall. induction Hall as [|x l Hx Hall IH]; [done|].
  destruct l as [|y l].
  - by apply split_free.
  - rewrite join_cons.
    change (String sep "" +:+ Str.join (String sep "") (y :: l))
      with (String sep (Str.join (String sep "") (y :: l))).
    rewrite (split_app_sep _ _ _ Hx). by rewrite IH.
Qed.

(** A header made of comma-free column names, joined with commas, is split
    back into those names; so the index found for the leading column is the
    number of columns before it, when none of those is the leading column
    itself. *)
Theorem find_leading_column_index_joined (before after : list string)
    (target_column : string) :
  Forall (fun x => free_of "," x = true) (before ++ target_column :: after) ->
  target_column ∉ before ->
  find_leading_column_index
    (Str.join "," (before ++ target_column :: after)) target_column
  = Ok (length before).
Proof.
  intros Hfree Hnin. unfold find_leading_column_index.
  rewrite split_join; [|by destruct before | done].
  assert (Hidx : index_of target_column (before ++ target_column :: after)
                 = Some (length before)).
  { apply index_of_Some. split.
    - by rewrite lookup_app_r, Nat.sub_diag by lia.
    - intros j Hj Hl. rewrite lookup_app_l in Hl by done.
      apply Hnin. by eapply list_elem_of_lookup_2. }
  by rewrite Hidx.
Qed.

Lemma find_leading_column_index_joined_witness :
  find_leading_column_index
    (Str.join "," (["Unnamed: 0"] ++ "customerID" :: ["tenure"; "Contract"]))
    "customerID"
  = Ok (length ["Unnamed: 0"]).
Proof.
  apply (find_leading_column_index_joined ["Unnamed: 0"]
           ["tenure"; "Contract"] "customerID").
  - repeat constructor.
  - rewrite elem_of_cons, elem_of_nil. intros [H | []]. discriminate H.
Defined.

(** ** Row serializer and row reader *)

(** The line written for a record splits back, at its commas, into one field
    per configured feature, in order: the text of the value, or the empty
    text for an absent key.  This needs at least one feature and no comma
    inside any of those texts; the serializer does no quoting. *)
Theorem convert_dict_to_string_fields (cfg : config.t)
    (str_float : float -> string) (element : record) :
  config.FEATURES cfg <> [] ->
  Forall (fun col =>
            free_of "," (py_str str_float (get element col (VStr ""))) = true)
         (config.FEATURES cfg) ->
  Str.split "," (convert_dict_to_string cfg str_float element)
  = map (fun col => py_str str_float (get element col (VStr "")))
        (config.FEATURES cfg).
Proof.
  intros Hne Hfree. unfold convert_dict_to_string.
  apply split_join.
  - by destruct (config.FEATURES cfg).
  - by apply Forall_map.
Qed.

Lemma convert_dict_to_string_fields_witness :
  Str.split ","
    (convert_dict_to_string example_config (fun _ => "0.5")
       (<["tenure" := VFloat 0.5%float]> {["PhoneService" := VInt 1]}))
  = ["0.5"; "1"; ""; ""; ""; ""].
Proof.
  rewrite (convert_dict_to_string_fields example_config (fun _ => "0.5")
             (<["tenure" := VFloat 0.5%float]> {["PhoneService" := VInt 1]})).
  - vm_compute. reflexivity.
  - discriminate.
  - repeat constructor.
Defined.

Lemma dict_zip_not_elem (names fields : list string) (acc : record) n :
  n ∉ names -> dict_zip names fields acc !! n = acc !! n.
Proof.
  revert fields acc. induction names as [|m names IH];
    intros fields acc Hn; [done|].
  destruct fields as [|x fields]; [done|]. cbn [dict_zip].
  rewrite IH by (intros H; apply Hn; by right).
  apply lookup_insert_ne. intros <-. apply Hn. by left.
Qed.

Lemma dict_zip_lookup (names fields : list string) (acc : record) j n :
  NoDup names ->
  names !! j = Some n ->
  dict_zip names fields acc !! n
  = match fields !! j with
    | Some x => Some (VStr x)
    | None => acc !! n
    end.
Proof.
  intros Hnd. revert fields acc j.
  induction Hnd as [|m names Hm Hnd IH]; intros fields acc j Hj; [done|].
  destruct fields as [|x fields].
  - by rewrite lookup_nil.
  - cbn [dict_zip]. destruct j as [|j]; simpl in *.
    + injection Hj as ->. rewrite dict_zip_not_elem by done.
      apply lookup_insert_eq.
    + rewrite (IH _ _ j Hj). destruct (fields !! j); [done|].
      apply lookup_insert_ne. intros ->. apply Hm.
      by eapply list_elem_of_lookup_2.
Qed.

(** Reading a line: with distinct column names, the record built for a line
    gives the column at position [j] the field at position
    [customer_id_index + j] of the line, as a string; the column is absent
    from the record when the line has no such field. *)
Theorem to_dict_lookup (cfg : config.t) (customer_id_index j : nat)
    (x n : string) :
  NoDup (config.COLUMN_NAMES cfg) ->
  config.COLUMN_NAMES cfg !! j = Some n ->
  to_dict cfg customer_id_index x !! n
  = VStr <$> Str.split "," x !! (customer_id_index + j)%nat.
Proof.
  intros Hnd Hj. unfold to_dict.
  rewrite (dict_zip_lookup _ _ _ j n Hnd Hj), lookup_drop.
  by destruct (Str.split "," x !! _).
Qed.

Lemma example_columns_NoDup : NoDup (config.COLUMN_NAMES example_config).
Proof.
  simpl. repeat (constructor; [rewrite ?elem_of_cons, elem_of_nil;
                               intuition discriminate|]).
  constructor.
Qed.

Lemma to_dict_lookup_witness :
  to_dict example_config 1 "0,c1,24,Yes,One year,100.5" !! "tenure"
  = VStr <$> Str.split "," "0,c1,24,Yes,One year,100.5" !! (1 + 1)%nat.
Proof.
  apply (to_dict_lookup example_config 1 1).
  - apply example_columns_NoDup.
  - reflexivity.
Defined.

(** ** The chain over a batch *)

Lemma beam_Map_raises {A B} (f : A -> result B) (l : list A) (x : A) :
  x ∈ l -> raises (f x) -> raises (beam_Map f l).
Proof.
  intros Hin Hx. induction l as [|y l IH]; [by apply elem_of_nil in Hin|].
  cbn [beam_Map]. destruct (f y) as [b|e] eqn:Hy; [|by exists e].
  apply elem_of_cons in Hin as [-> | Hin].
  - destruct Hx as [e He]. congruence.
  - simpl. destruct (IH Hin) as [e ->]. by exists e.
Qed.

(** A line with too few fields makes the run fail: when an allow-list key is
    the column at position [j] and a line has no field at position
    [customer_id_index + j] (a blank line, a truncated line), the feature
    filter raises KeyError on the record of that line, and the chain over
    any batch that holds the line raises. *)
Theorem processed_data_short_line (cfg : config.t)
    (tenure_stage : FillTenureWithMean.t) (str_float : float -> string)
    (customer_id_index j : nat) (lines : list string) (line k : string) :
  NoDup (config.COLUMN_NAMES cfg) ->
  config.COLUMN_NAMES cfg !! j = Some k ->
  k ∈ config.FEATURES_AFTER_CONTRACT cfg ->
  line ∈ lines ->
  (length (Str.split "," line) <= customer_id_index + j)%nat ->
  filter_features cfg (to_dict cfg customer_id_index line) = Raise KeyError
  /\ raises (processed_data cfg tenure_stage str_float
               customer_id_index lines).
Proof.
  intros Hnd Hj Hk Hin Hlen.
  assert (Hline : filter_features cfg (to_dict cfg customer_id_index line)
                  = Raise KeyError).
  { apply (dict_of_keys_absent _ _ _ k Hk).
    unfold to_dict.
    rewrite (dict_zip_lookup _ _ _ j k Hnd Hj), lookup_drop.
    by rewrite lookup_ge_None_2. }
  split; [done|]. unfold processed_data. apply raises_bind.
  apply (beam_Map_raises _ _ (to_dict cfg customer_id_index line)).
  - apply list_elem_of_In, in_map, list_elem_of_In, Hin.
  - by exists KeyError.
Qed.

Lemma processed_data_short_line_witness :
  filter_features example_config (to_dict example_config 0 "")
  = Raise KeyError
  /\ raises (processed_data example_config example_tenure_stage
               (fun _ => "") 0
               ["c1,5,Yes,One year,10.5"; ""; "c3,7,No,Two year,3.5"]).
Proof.
  apply (processed_data_short_line example_config example_tenure_stage
           (fun _ => "") 0 1 _ "" "tenure").
  - apply example_columns_NoDup.
  - reflexivity.
  - simpl. rewrite !elem_of_cons. tauto.
  - rewrite !elem_of_cons. tauto.
  - simpl. lia.
Defined.

Lemma from_contract_filter_cleaned (cfg : config.t)
    (tenure_stage : FillTenureWithMean.t) (str_float : float -> string)
    (rows : list record) :
  from_contract_filter cfg tenure_stage str_float rows
  = (out ← cleaned_records cfg tenure_stage rows;
     Ok (map (convert_dict_to_string cfg str_float) out)).
Proof.
  unfold from_contract_filter, cleaned_records.
  repeat match goal with
         | |- context [beam_ParDo ?f ?l] =>
             destruct (beam_ParDo f l); simpl; [|done]
         end.
  done.
Qed.

Lemma beam_ParDo_filter (rows : list record) :
  beam_ParDo FilterInvalidContract.process rows
  = Ok (List.filter valid_contract rows).
Proof.
  induction rows as [|e rows IH]; [done|].
  cbn [beam_ParDo List.filter]. rewrite IH.
  unfold FilterInvalidContract.process, valid_contract.
  by destruct (FilterInvalidContract.is_valid _).
Qed.

Lemma beam_ParDo_single {A B} (f : A -> result (list B)) (P : A -> Prop)
    (Q : B -> Prop) (l : list A) (out : list B) :
  (forall x ys, P x -> f x = Ok ys -> exists y, ys = [y] /\ Q y) ->
  Forall P l ->
  beam_ParDo f l = Ok out ->
  Forall Q out /\ length out = length l.
Proof.
  intros Hf HP. revert out. induction HP as [|x l Hx HP IH]; intros out.
  - intros [= <-]. by split.
  - cbn [beam_ParDo]. destruct (f x) as [ys|e] eqn:Hfx; simpl; [|discriminate].
    destruct (beam_ParDo f l) as [zs|e]; simpl; [|discriminate].
    intros [= <-]. destruct (Hf _ _ Hx Hfx) as (y & -> & Hy).
    destruct (IH zs eq_refl) as [HQ Hlen]. split.
    + by constructor.
    + simpl. by rewrite Hlen.
Qed.

Lemma valid_contract_lookup (e : record) :
  valid_contract e = true ->
  exists c, e !! "Contract" = Some (VStr c)
            /\ c ∈ FilterInvalidContract.valid_contracts.
Proof.
  unfold valid_contract. intros Hv.
  apply is_valid_true in Hv as (c & Hc & Hin). exists c. split; [|done].
  unfold get in Hc. by destruct (e !! "Contract"); subst.
Qed.

Lemma one_hot_insert (o : record) (k : string) (v : value) :
  k ∉ FilterInvalidContract.valid_contracts ->
  one_hot o -> one_hot (<[k := v]> o).
Proof.
  intros Hk (c & Hc & H1 & H0). exists c. split; [done|]. split.
  - rewrite lookup_insert_ne; [done | by intros ->].
  - intros k' Hk' Hne. rewrite lookup_insert_ne; [by apply H0 | by intros ->].
Qed.

Lemma one_hot_encoded (element : record) (c : string) :
  c ∈ FilterInvalidContract.valid_contracts ->
  one_hot (delete "Contract"
             (OHEContract.indicators
                (if decide (c = "One year") then 1 else 0)
                (if decide (c = "Two year") then 1 else 0)
                (if decide (c = "Month-to-month") then 1 else 0) ∪ element)).
Proof.
  intros Hin. exists c. split; [done|].
  apply elem_of_valid_contracts in Hin. split.
  - destruct Hin as [-> | [-> | ->]];
      rewrite lookup_delete_ne by done;
      rewrite lookup_union, lookup_indicators;
      repeat case_decide; try done; apply union_Some_l.
  - intros k Hk Hne. apply elem_of_valid_contracts in Hk.
    assert (k <> "Contract") by (destruct Hk as [-> | [-> | ->]]; done).
    rewrite lookup_delete_ne by done.
    rewrite lookup_union, lookup_indicators.
    destruct Hk as [-> | [-> | ->]], Hin as [-> | [-> | ->]];
      repeat case_decide; try done; apply union_Some_l.
Qed.

Lemma not_valid_contract_key (k : string) :
  k = "TotalCharges" \/ k = "PhoneService" \/ k = "tenure" ->
  k ∉ FilterInvalidContract.valid_contracts.
Proof.
  rewrite elem_of_valid_contracts.
  intros [-> | [-> | ->]] [H | [H | H]]; discriminate H.
Qed.

Lemma MapPhoneService_shape (element : record) rows :
  MapPhoneService.process element = Ok rows ->
  rows = [<["PhoneService" := VInt 0]> element]
  \/ rows = [<["PhoneService" := VInt 1]> element].
Proof.
  unfold MapPhoneService.process.
  destruct (getitem element "PhoneService") as [v|e]; simpl; [|discriminate].
  destruct (MapPhoneService.lower v) as [s|e]; simpl; [|discriminate].
  intros [= <-]. destruct (String.eqb s "yes"); auto.
Qed.

Lemma FillPhoneService_shape (element : record) :
  FillPhoneService.process element = Ok [element]
  \/ FillPhoneService.process element
     = Ok [<["PhoneService" := VStr "No"]> element].
Proof.
  unfold FillPhoneService.process.
  destruct (is_none _ || is_float_nan _); auto.
Qed.

Lemma cleaned_records_invariant (cfg : config.t)
    (tenure_stage : FillTenureWithMean.t) (rows out : list record) :
  cleaned_records cfg tenure_stage rows = Ok out ->
  Forall cleaned out
  /\ length out = length (List.filter valid_contract rows).
Proof.
  unfold cleaned_records. rewrite beam_ParDo_filter, bind_Ok.
  set (rows1 := List.filter valid_contract rows).
  assert (H1 : Forall (fun e => valid_contract e = true) rows1).
  { apply List.Forall_forall. intros e He.
    by apply List.filter_In in He as [_ He]. }
  destruct (beam_ParDo OHEContract.process rows1) as [rows2|] eqn:E2;
    simpl; [|discriminate].
  destruct (beam_ParDo (FillTotalCharges.process cfg) rows2) as [rows3|]
    eqn:E3; simpl; [|discriminate].
  destruct (beam_ParDo FillPhoneService.process rows3) as [rows4|] eqn:E4;
    simpl; [|discriminate].
  destruct (beam_ParDo (FillTenureWithMean.process tenure_stage) rows4)
    as [rows5|] eqn:E5; simpl; [|discriminate].
  intros E6.
  pose (P2 := fun o : record => o !! "Contract" = None /\ one_hot o).
  pose (P3 := fun o : record =>
                P2 o /\ exists f, o !! "TotalCharges" = Some (VFloat f)).
  pose (P5 := fun o : record =>
                P3 o /\ exists f, o !! "tenure" = Some (VFloat f)).
  assert (S2 : forall e ys, valid_contract e = true ->
                 OHEContract.process e = Ok ys -> exists y, ys = [y] /\ P2 y).
  { intros e ys He Hys.
    apply valid_contract_lookup in He as (c & Hc & Hin).
    rewrite (OHEContract_valid_lookup _ _ Hc Hin) in Hys.
    injection Hys as <-. eexists. split; [done|]. split.
    - apply lookup_delete_eq.
    - by apply one_hot_encoded. }
  destruct (beam_ParDo_single _ _ _ _ _ S2 H1 E2) as [H2 L2].
  assert (S3 : forall e ys, P2 e -> FillTotalCharges.process cfg e = Ok ys ->
                 exists y, ys = [y] /\ P3 y).
  { intros e ys He Hys.
    apply FillTotalCharges_shape in Hys as (f & ->).
    eexists. split; [done|]. destruct He as [Hc Hoh]. split; [split|].
    - by rewrite lookup_insert_ne.
    - apply one_hot_insert; [|done]. apply not_valid_contract_key. auto.
    - exists f. apply lookup_insert_eq. }
  destruct (beam_ParDo_single _ _ _ _ _ S3 H2 E3) as [H3 L3].
  assert (S4 : forall e ys, P3 e -> FillPhoneService.process e = Ok ys ->
                 exists y, ys = [y] /\ P3 y).
  { intros e ys He Hys.
    destruct (FillPhoneService_shape e) as [Hs | Hs];
      rewrite Hs in Hys; injection Hys as <-;
      (eexists; split; [done|]); [done|].
    destruct He as [[Hc Hoh] (f & Hf)]. split; [split|].
    - by rewrite lookup_insert_ne.
    - apply one_hot_insert; [|done]. apply not_valid_contract_key. auto.
    - exists f. by rewrite lookup_insert_ne. }
  destruct (beam_ParDo_single _ _ _ _ _ S4 H3 E4) as [H4 L4].
  assert (S5 : forall e ys, P3 e ->
                 FillTenureWithMean.process tenure_stage e = Ok ys ->
                 exists y, ys = [y] /\ P5 y).
  { intros e ys He Hys.
    apply FillTenureWithMean_shape in Hys as (g & ->).
    eexists. split; [done|].
    destruct He as [[Hc Hoh] (f & Hf)]. split; [split; [split|]|].
    - by rewrite lookup_insert_ne.
    - apply one_hot_insert; [|done]. apply not_valid_contract_key. auto.
    - exists f. by rewrite lookup_insert_ne.
    - exists g. apply lookup_insert_eq. }
  destruct (beam_ParDo_single _ _ _ _ _ S5 H4 E5) as [H5 L5].
  assert (S6 : forall e ys, P5 e -> MapPhoneService.process e = Ok ys ->
                 exists y, ys = [y] /\ cleaned y).
  { intros e ys He Hys.
    destruct He as [[[Hc Hoh] (f & Hf)] (g & Hg)].
    assert (Hcl : forall b, b = 0 \/ b = 1 ->
              cleaned (<["PhoneService" := VInt b]> e)).
    { intros b Hb. split; [|split; [|split; [|split]]].
      - by rewrite lookup_insert_ne.
      - apply one_hot_insert; [|done]. apply not_valid_contract_key. auto.
      - exists f. by rewrite lookup_insert_ne.
      - exists g. by rewrite lookup_insert_ne.
      - rewrite lookup_insert_eq. destruct Hb as [-> | ->]; auto. }
    destruct (MapPhoneService_shape _ _ Hys) as [-> | ->];
      eexists; (split; [done|]); apply Hcl; auto. }
  destruct (beam_ParDo_single _ _ _ _ _ S6 H5 E6) as [H6 L6].
  split; [done|]. congruence.
Qed.

(** Every record that leaves the chain is fully cleaned: no "Contract" key,
    exactly one of the three indicators at 1 and the others at 0, a float
    under "TotalCharges" and under "tenure", and 0 or 1 under
    "PhoneService". *)
Theorem cleaned_records_cleaned (cfg : config.t)
    (tenure_stage : FillTenureWithMean.t) (rows out : list record) :
  cleaned_records cfg tenure_stage rows = Ok out ->
  Forall cleaned out.
Proof. intros H. by apply cleaned_records_invariant in H as [? _]. Qed.

(** When the chain succeeds it writes exactly one line per record with a
    valid "Contract", and none for the others. *)
Theorem from_contract_filter_length (cfg : config.t)
    (tenure_stage : FillTenureWithMean.t) (str_float : float -> string)
    (rows : list record) (lines : list string) :
  from_contract_filter cfg tenure_stage str_float rows = Ok lines ->
  length lines = length (List.filter valid_contract rows).
Proof.
  rewrite from_contract_filter_cleaned.
  destruct (cleaned_records cfg tenure_stage rows) as [out|] eqn:E;
    simpl; [|discriminate].
  intros [= <-]. apply cleaned_records_invariant in E as [_ <-].
  apply length_map.
Qed.

Lemma cleaned_records_cleaned_witness :
  exists out,
    cleaned_records example_config example_tenure_stage
      [example_row; {["Contract" := VStr "Three year"]}] = Ok out
    /\ Forall cleaned out.
Proof.
  eexists. split; [reflexivity|].
  apply (cleaned_records_cleaned example_config example_tenure_stage
           [example_row; {["Contract" := VStr "Three year"]}]).
  reflexivity.
Defined.

Lemma from_contract_filter_length_witness :
  exists lines,
    from_contract_filter example_config example_tenure_stage (fun _ => "")
      [example_row; {["Contract" := VStr "Three year"]}] = Ok lines
    /\ length lines
       = length (List.filter valid_contract
                   [example_row; {["Contract" := VStr "Three year"]}]).
Proof.
  eexists. split; [reflexivity|].
  apply (from_contract_filter_length example_config example_tenure_stage
           (fun _ => "")).
  reflexivity.
Defined.

(** ** Contract null guard *)

(** The null guard never yields a record: it raises KeyError when the key
    "Contract" is absent and AttributeError for every value, null or not,
    because [any] is looked up on a bool. *)
Theorem HandleContract_never_yields (element : record) :
  (element !! "Contract" = None
   /\ HandleContract.process element = Raise KeyError)
  \/ (is_Some (element !! "Contract")
      /\ HandleContract.process element = Raise AttributeError).
Proof.
  unfold HandleContract.process, getitem.
  destruct (element !! "Contract"); [right | left]; by split.
Qed.

(** ** Emptiness test and driver *)

Lemma until_from_eol (s : string) : s = until_eol s +:+ from_eol s.
Proof.
  induction s as [|c s IH]; [done|]. cbn [until_eol from_eol].
  destruct (is_eol c); [done|]. rewrite append_cons. by f_equal.
Qed.

Lemma until_eol_no_eol (s : string) : no_eol (until_eol s) = true.
Proof.
  unfold no_eol. induction s as [|c s IH]; [done|]. cbn [until_eol].
  destruct (is_eol c) eqn:Hc; [done|]. cbn [Str.all]. rewrite IH.
  unfold is_eol in Hc. apply orb_false_elim in Hc as [-> ->]. done.
Qed.

Lemma from_eol_head (s : string) :
  from_eol s = "" \/ exists c r, from_eol s = String c r /\ is_eol c = true.
Proof.
  induction s as [|c s IH]; [by left|]. cbn [from_eol].
  destruct (is_eol c) eqn:Hc; [|done]. right. by exists c, s.
Qed.

Lemma universal_newlines_head (c : ascii) (r : string) :
  is_eol c = true ->
  exists t, universal_newlines (String c r) = String LF t.
Proof.
  unfold is_eol. intros Hc. cbn [universal_newlines].
  destruct (Ascii.eqb_spec c CR) as [-> | Hcr].
  - destruct r as [|c' r']; [by eexists|].
    destruct (Ascii.eqb_spec c' LF) as [-> | Hlf]; [|by eexists].
    cbn [universal_newlines]. change (Ascii.eqb LF CR) with false.
    by eexists.
  - rewrite orb_false_r in Hc. apply Ascii.eqb_eq in Hc as ->. by eexists.
Qed.

Lemma all_cons (p : ascii -> bool) (c : ascii) (s : string) :
  Str.all p (String c s) = p c && Str.all p s.
Proof. reflexivity. Qed.

Lemma isspace_of_universal_newlines (r : string) :
  Str.all Str.isspace (universal_newlines r) = true ->
  Str.all Str.isspace r = true.
Proof.
  induction r as [|c r IH]; [done|]. cbn [universal_newlines].
  rewrite (all_cons _ c r).
  destruct (Ascii.eqb_spec c CR) as [-> | Hcr].
  - change (Str.isspace CR) with true. cbn [andb].
    destruct r as [|c' r']; [done|].
    destruct (Ascii.eqb c' LF); [done|].
    rewrite all_cons. intros H. apply andb_prop in H as [_ H]. by apply IH.
  - rewrite all_cons. intros H. apply andb_prop in H as [-> H]. by apply IH.
Qed.

Lemma rstrip_by_empty (sp : ascii -> bool) (s : string) :
  Str.rstrip_by sp s = "" -> Str.all sp s = true.
Proof.
  induction s as [|c s IH]; [done|]. cbn [Str.rstrip_by Str.all].
  destruct (Str.rstrip_by sp s); [|discriminate].
  destruct (sp c); [|discriminate]. intros _. by apply IH.
Qed.

Lemma lstrip_by_all_inv (sp : ascii -> bool) (s : string) :
  Str.all sp (Str.lstrip_by sp s) = true -> Str.all sp s = true.
Proof.
  induction s as [|c s IH]; [done|]. cbn [Str.lstrip_by].
  destruct (sp c) eqn:Hc.
  - intros H. cbn [Str.all]. by rewrite Hc, IH.
  - cbn [Str.all]. by rewrite Hc.
Qed.

Lemma strip_empty_blank (s : string) :
  Str.strip s = "" -> Str.all Str.isspace s = true.
Proof.
  unfold Str.strip, Str.strip_by. intros H.
  by apply lstrip_by_all_inv, rstrip_by_empty.
Qed.

Lemma keepends_blank (t : string) :
  forallb (fun line => String.eqb (Str.strip line) "") (keepends t) = true ->
  Str.all Str.isspace t = true.
Proof.
  induction t as [|c t IH]; [done|]. cbn [keepends].
  destruct (Ascii.eqb_spec c LF) as [-> | Hc].
  - cbn [forallb]. intros H. apply andb_prop in H as [_ H].
    cbn [Str.all]. by rewrite isspace_LF, IH.
  - destruct (keepends t) as [|l ls] eqn:Hk.
    + destruct t as [|c' t']; [|cbn [keepends] in Hk;
        destruct (Ascii.eqb c' LF); [discriminate|];
        destruct (keepends t'); discriminate].
      cbn [forallb]. intros H. apply andb_prop in H as [H _].
      apply String.eqb_eq, strip_empty_blank in H. done.
    + cbn [forallb] in *. intros H. apply andb_prop in H as [H1 H2].
      apply String.eqb_eq, strip_empty_blank in H1.
      cbn [Str.all] in H1. apply andb_prop in H1 as [Hsp Hl].
      cbn [Str.all]. rewrite Hsp. apply IH.
      by rewrite (proj2 (String.eqb_eq _ _) (strip_blank _ Hl)), H2.
Qed.

(** [is_csv_empty] answers True exactly for the files made of a first line
    without terminator inside, followed by nothing but white space (line
    terminators included): the empty file, a lone header, a header followed
    by blank lines. *)
Theorem is_csv_empty_iff (w : world) (file_path content : string) :
  files w !! file_path = Some content ->
  is_csv_empty w file_path = Ok true
  <-> exists header rest,
        content = header +:+ rest
        /\ no_eol header = true
        /\ Str.all Str.isspace rest = true.
Proof.
  intros Hf. split.
  - unfold is_csv_empty, open_read. rewrite Hf, bind_Ok. intros [= Hall].
    exists (until_eol content), (from_eol content).
    split; [apply until_from_eol|]. split; [apply until_eol_no_eol|].
    unfold readlines in Hall.
    rewrite (until_from_eol content) in Hall.
    rewrite universal_newlines_app, keepends_app_tail in Hall
      by apply until_eol_no_eol.
    destruct (from_eol_head content) as [-> | (c & r & Hr & Hc)]; [done|].
    rewrite Hr in *. apply isspace_of_universal_newlines.
    destruct (universal_newlines_head c r Hc) as (t & Ht).
    rewrite Ht in *. cbn [keepends] in Hall.
    rewrite Ascii.eqb_refl in Hall. cbn [tail] in Hall.
    cbn [Str.all]. by rewrite isspace_LF, (keepends_blank _ Hall).
  - intros (header & rest & -> & Hh & Hr).
    by apply (is_csv_empty_header_only _ _ header rest).
Qed.

Lemma is_csv_empty_iff_witness :
  is_csv_empty header_only_world "in.csv" = Ok true
  <-> exists header rest,
        "customerID,tenure" +:+ String LF (String " " (String LF ""))
        = header +:+ rest
        /\ no_eol header = true
        /\ Str.all Str.isspace rest = true.
Proof.
  apply (is_csv_empty_iff header_only_world "in.csv"). reflexivity.
Defined.

(** [run_pipeline] writes at most one file, the one named by [output_file]
    followed by [db_out_suffix], and only when it returns True: when it
    returns False or raises, the files are exactly as before. *)
Theorem run_pipeline_files (cfg : config.t)
    (tenure_stage : FillTenureWithMean.t) (str_float : float -> string)
    (input_file output_file db_out_suffix : string) (w : world) :
  let r := run_pipeline cfg tenure_stage str_float
             input_file output_file db_out_suffix w in
  (forall path, path <> output_file +:+ db_out_suffix ->
                files (snd r) !! path = files w !! path)
  /\ (fst r <> Ok true -> files (snd r) = files w).
Proof.
  unfold run_pipeline.
  destruct (is_csv_empty w input_file) as [[|]|e]; cbn [fst snd];
    try (split; done).
  match goal with
  | |- context [match ?m with Ok _ => _ | Raise _ => _ end] =>
      destruct m as [lines|e]
  end; cbn [fst snd]; [|split; done].
  split; [|done]. intros path Hp. unfold WriteToText. cbn [files].
  by rewrite lookup_insert_ne.
Qed.

(** [run_pipeline] returns False exactly when the emptiness test says True;
    every other failure is an exception, never a False. *)
Theorem run_pipeline_false_iff (cfg : config.t)
    (tenure_stage : FillTenureWithMean.t) (str_float : float -> string)
    (input_file output_file db_out_suffix : string) (w : world) :
  fst (run_pipeline cfg tenure_stage str_float
         input_file output_file db_out_suffix w) = Ok false
  <-> is_csv_empty w input_file = Ok true.
Proof.
  unfold run_pipeline.
  destruct (is_csv_empty w input_file) as [[|]|e]; cbn [fst].
  - done.
  - match goal with
    | |- context [match ?m with Ok _ => _ | Raise _ => _ end] =>
        destruct m as [lines|e]
    end; cbn [fst]; split; discriminate.
  - split; discriminate.
Qed.

(** When [run_pipeline] returns True, the input had data, the leading
    column was found at some index, the chain succeeded on the lines after
    the first, and the output file holds the comma-joined feature list as
    its first line, then the lines of the chain, each ended by a line feed;
    the only text printed is the "contains data" line. *)
Theorem run_pipeline_success (cfg : config.t)
    (tenure_stage : FillTenureWithMean.t) (str_float : float -> string)
    (input_file output_file db_out_suffix : string) (w : world) :
  let r := run_pipeline cfg tenure_stage str_float
             input_file output_file db_out_suffix w in
  fst r = Ok true ->
  exists content customer_id_index rows,
    files w !! input_file = Some content
    /\ is_csv_empty w input_file = Ok false
    /\ find_leading_column_index (Str.strip (readline content))
         (config.LEADING_COLUMN cfg) = Ok customer_id_index
    /\ processed_data cfg tenure_stage str_float customer_id_index
         (ReadFromText content) = Ok rows
    /\ files (snd r) !! (output_file +:+ db_out_suffix)
       = Some (Str.join ""
                 (map (fun l => l +:+ String LF "")
                      (Str.join "," (config.FEATURES cfg) :: rows)))
    /\ stdout (snd r) = stdout w ++ [input_file +:+ " contains data."].
Proof.
  unfold run_pipeline.
  destruct (is_csv_empty w input_file) as [[|]|e] eqn:Hempty; cbn [fst snd];
    try discriminate.
  unfold open_read, print. cbn [files].
  destruct (files w !! input_file) as [content|] eqn:Hf;
    [|cbn; discriminate].
  rewrite bind_Ok.
  destruct (find_leading_column_index _ _) as [i|e] eqn:Hidx;
    [|cbn; discriminate].
  rewrite bind_Ok.
  destruct (processed_data _ _ _ _ _) as [rows|e] eqn:Hrows;
    [|cbn; discriminate].
  cbn. intros _. exists content, i, rows.
  repeat split; try done. apply lookup_insert_eq.
Qed.

Lemma run_pipeline_success_witness :
  exists content customer_id_index rows,
    files one_row_world !! "in.csv" = Some content
    /\ is_csv_empty one_row_world "in.csv" = Ok false
    /\ find_leading_column_index (Str.strip (readline content))
         (config.LEADING_COLUMN example_config) = Ok customer_id_index
    /\ processed_data example_config example_tenure_stage (fun _ => "x")
         customer_id_index (ReadFromText content) = Ok rows
    /\ files (snd (run_pipeline example_config example_tenure_stage
                     (fun _ => "x") "in.csv" "out" ".csv" one_row_world))
         !! ("out" +:+ ".csv")
       = Some (Str.join ""
                 (map (fun l => l +:+ String LF "")
                      (Str.join "," (config.FEATURES example_config) :: rows)))
    /\ stdout (snd (run_pipeline example_config example_tenure_stage
                      (fun _ => "x") "in.csv" "out" ".csv" one_row_world))
       = stdout one_row_world ++ ["in.csv" +:+ " contains data."].
Proof.
  apply (run_pipeline_success example_config example_tenure_stage
           (fun _ => "x") "in.csv" "out" ".csv" one_row_world).
  reflexivity.
Defined.

(** ** CSV row helper *)

Lemma forallb_false_elim {A} (f : A -> bool) (l : list A) :
  forallb f l = false -> exists x, In x l /\ f x = false.
Proof.
  induction l as [|x l IH]; [discriminate|]. cbn [forallb].
  destruct (f x) eqn:Hx.
  - intros H. destruct (IH H) as (y & Hy & Hfy). exists y. split; [by right|done].
  - intros _. exists x. split; [by left | done].
Qed.

Lemma in_keys (element : record) (k : string) :
  In k (map fst (map_to_list element)) <-> is_Some (element !! k).
Proof.
  rewrite List.in_map_iff. split.
  - intros ([k' v] & <- & Hin). exists v.
    by apply elem_of_map_to_list, list_elem_of_In.
  - intros [v Hv]. exists (k, v). split; [done|].
    by apply list_elem_of_In, elem_of_map_to_list.
Qed.

(** The CSV row helper raises TypeError whenever it is called without
    headers (its default), and ValueError exactly when the record has a key
    that is not among the headers; with headers covering the record's keys
    it returns a row. *)
Theorem dict_to_csv_row_raises_iff (str_float : float -> string)
    (element : record) (headers : option (list string)) (e : exn) :
  dict_to_csv_row str_float element headers = Raise e
  <-> (headers = None /\ e = TypeError)
      \/ (exists fieldnames k,
            headers = Some fieldnames /\ is_Some (element !! k)
            /\ (k ∉ fieldnames) /\ e = ValueError).
Proof.
  unfold dict_to_csv_row. destruct headers as [fieldnames|].
  - destruct (forallb _ _) eqn:Hall.
    + split; [discriminate|].
      intros [[? _] | (fs & k & [= <-] & Hk & Hnin & _)]; [discriminate|].
      exfalso. apply Hnin.
      rewrite List.forallb_forall in Hall.
      apply in_keys, Hall in Hk. by apply bool_decide_eq_true in Hk.
    + split.
      * intros [= <-]. right. exists fieldnames.
        apply forallb_false_elim in Hall as (k & Hk & Hnin).
        exists k. split; [done|]. split; [by apply in_keys|].
        split; [|done]. by apply bool_decide_eq_false in Hnin.
      * by intros [[? _] | (fs & k & _ & _ & _ & ->)].
  - split.
    + intros [= <-]. by left.
    + by intros [[_ ->] | (fs & k & ? & _)].
Qed.
